(** * bioptim: penalty helpers, holonomic constraints and the stochastic
      optimal control program

    A shallow embedding of
    - [bioptim/limits/penalty_helpers.py],
    - [bioptim/examples/discrete_mechanics_and_optimal_control/holonomic_constraints.py],
    - [bioptim/optimization/stochastic_optimal_control_program.py],
    followed by the properties of these functions. *)

From Stdlib Require Import ZArith List Lia Bool String Floats.
From stdpp Require Import gmap strings list.

Local Open Scope Z_scope.

(** ** Python: exceptions, results, indexing, slices, [range] *)

Module Py.

(** The exceptions the modelled code raises by itself carry their message.
    [IndexError] is what Python raises on [l[i]] out of range;
    [ForeignError] stands for an exception raised inside casadi or numpy. *)
Inductive exn : Type :=
| NotImplementedError (msg : string)
| RuntimeError (msg : string)
| ValueError (msg : string)
| IndexError
| ForeignError.

Inductive result (T : Type) : Type :=
| Ok (v : T)
| Raise (e : exn).
Arguments Ok {T} v.
Arguments Raise {T} e.

Definition bind {T U : Type} (c : result T) (k : T -> result U) : result U :=
  match c with
  | Ok v => k v
  | Raise e => Raise e
  end.

(** [slice(start, stop)]; [None] is an omitted bound. *)
Record slice : Type := Slice { start : option Z; stop : option Z }.

(** [slice(0, 1)]: the first sub-step. *)
Definition slice_first : slice := Slice (Some 0) (Some 1).
(** [slice(-1, None)]: the last sub-step. *)
Definition slice_last : slice := Slice (Some (-1)) None.
(** [slice(0, None)]: all the sub-steps. *)
Definition slice_all : slice := Slice (Some 0) None.

(** [l[i]] for an [int] [i]: negative indices count from the end. *)
Definition getitem {T : Type} (l : list T) (i : Z) : result T :=
  let n := Z.of_nat (length l) in
  let j := if i <? 0 then i + n else i in
  if (0 <=? j) && (j <? n)
  then match l !! Z.to_nat j with
       | Some x => Ok x
       | None => Raise IndexError
       end
  else Raise IndexError.

(** [range(n)] *)
Definition range (n : Z) : list Z :=
  map Z.of_nat (seq 0 (Z.to_nat n)).

(** A [for] loop that appends one computed item per element. *)
Fixpoint mapM {T U : Type} (f : T -> result U) (l : list T)
  : result (list U) :=
  match l with
  | [] => Ok []
  | x :: l' =>
      match f x with
      | Ok y =>
          match mapM f l' with
          | Ok ys => Ok (y :: ys)
          | Raise e => Raise e
          end
      | Raise e => Raise e
      end
  end.

(** [zip(a, b, c)] stops at the shortest argument. *)
Fixpoint zip3 {T U V : Type} (a : list T) (b : list U) (c : list V)
  : list (T * U * V) :=
  match a, b, c with
  | x :: a', y :: b', z :: c' => (x, y, z) :: zip3 a' b' c'
  | _, _, _ => []
  end.

End Py.

Import Py.

Notation "'let*' x ':=' c 'in' k" := (Py.bind c (fun x => k))
  (at level 10, x pattern, c at level 100, k at level 200).

(** ** The two matrix libraries: numpy arrays and casadi matrices *)

Module Numeric.

(** The classes of the objects handed to the helpers: the three classes of
    casadi matrices, [numpy.ndarray], and the other classes by their
    names. *)
Inductive pyclass : Type :=
| ClassSX
| ClassMX
| ClassDM
| ClassNdarray
| ClassOther (name : string).

#[global] Instance pyclass_eq_dec : EqDecision pyclass.
Proof. solve_decision. Defined.

(** The classes of the program that runs the helpers: [derives c name]
    tells whether the class [c] derives from the other class named [name],
    as [bool] derives from [int] and every class from [object]. *)
Class Inheritance : Type := {
  derives : pyclass -> string -> bool
}.

Section WithScalar.

(** The entries: floats in a numeric array or a [DM], symbolic expressions
    in an [SX] or [MX].  The helpers only move entries around. *)
Context {A : Type}.

(** A numpy array: its shape and its entries in C order (last index
    fastest), as numpy stores a fresh array. *)
Record ndarray : Type := NdArray { nd_shape : list nat; nd_data : list A }.

(** A casadi matrix is always two-dimensional; entries in column-major
    order, as casadi stores them. *)
Record cmatrix : Type :=
  CMatrix { nrow : nat; ncol : nat; entries : list A }.

Inductive cas_kind : Type := SX | MX | DM.

(** What a callback of the owning program may hand to the helpers: an
    object whose class is [SX], [MX] or [DM], an object whose class is
    [numpy.ndarray], or an object of another class, known by the name of
    this class.  The other classes are the ones that derive from none of
    these four. *)
Inductive value : Type :=
| Cas (k : cas_kind) (m : cmatrix)
| Nd (a : ndarray)
| Other (cls : string).

(** [type(v)] *)
Definition type_of (v : value) : pyclass :=
  match v with
  | Cas SX _ => ClassSX
  | Cas MX _ => ClassMX
  | Cas DM _ => ClassDM
  | Nd _ => ClassNdarray
  | Other cls => ClassOther cls
  end.

Context {inheritance : Inheritance}.

(** [isinstance(v, c)]: the class of [v] is [c] or derives from it.  None
    of the four matrix classes derives from another of them. *)
Definition isinstance (v : value) (c : pyclass) : bool :=
  bool_decide (type_of v = c)
  || match c with
     | ClassOther name => derives (type_of v) name
     | _ => false
     end.

(** casadi's own answers, where the modelled code leaves the decision to
    the library. *)
Class Casadi : Type := {
  (** [casadi.vertcat] on operands that do not all have the same number
      of columns.  casadi skips an operand of no row and no column, and
      refuses most of the other combinations. *)
  vertcat_ragged : cas_kind -> list cmatrix -> result cmatrix
}.
Context {casadi : Casadi}.

Definition size_of (shape : list nat) : nat := foldr Nat.mul 1%nat shape.

Definition nd_wf (a : ndarray) : Prop :=
  length (nd_data a) = size_of (nd_shape a).

Definition cm_wf (m : cmatrix) : Prop :=
  length (entries m) = (nrow m * ncol m)%nat.

(** [n] consecutive chunks of [k] entries. *)
Fixpoint chunks (n k : nat) (l : list A) : list (list A) :=
  match n with
  | O => []
  | S n' => take k l :: chunks n' k (drop k l)
  end.

(** The first [k] columns of a list of rows. *)
Fixpoint columns (k : nat) (rows : list (list A)) : list (list A) :=
  match k with
  | O => []
  | S k' => (rows ≫= take 1) :: columns k' (map (drop 1) rows)
  end.

(** The entries of an array of shape [shape] read in Fortran order (first
    index fastest), from its entries in C order. *)
Fixpoint flatten_F (shape : list nat) (data : list A) : list A :=
  match shape with
  | [] => data
  | d :: rest =>
      let k := size_of rest in
      concat (columns k (map (flatten_F rest) (chunks d k data)))
  end.

(** [a.reshape((-1, 1), order="F")] *)
Definition np_reshape_col_F (a : ndarray) : ndarray :=
  NdArray [size_of (nd_shape a); 1%nat] (flatten_F (nd_shape a) (nd_data a)).

(** [m.reshape((-1, 1))] on a casadi matrix keeps the column-major order. *)
Definition cas_reshape_col (m : cmatrix) : cmatrix :=
  CMatrix (nrow m * ncol m) 1 (entries m).

(** [np.array([])] *)
Definition np_empty : ndarray := NdArray [0%nat] [].

(** [a.T]: the axes reversed. *)
Definition np_T (a : ndarray) : ndarray :=
  NdArray (rev (nd_shape a)) (flatten_F (nd_shape a) (nd_data a)).

(** [a[..., i]]: index [i] along the last axis. *)
Definition np_index_last (a : ndarray) (i : Z) : result ndarray :=
  match rev (nd_shape a) with
  | [] => Raise IndexError
  | n :: front =>
      let j := if i <? 0 then i + Z.of_nat n else i in
      if (0 <=? j) && (j <? Z.of_nat n)
      then Ok (NdArray (rev front)
                 (chunks (size_of front) n (nd_data a)
                    ≫= (fun c => take 1 (drop (Z.to_nat j) c))))
      else Raise IndexError
  end.

(** [np.atleast_2d(a)] *)
Definition np_atleast_2d (a : ndarray) : ndarray :=
  match nd_shape a with
  | [] => NdArray [1%nat; 1%nat] (nd_data a)
  | [n] => NdArray [1%nat; n] (nd_data a)
  | _ => a
  end.

(** [np.vstack(l)]: concatenation along the first axis of the arrays made
    at least two-dimensional. *)
Definition np_vstack (l : list ndarray) : result ndarray :=
  match map np_atleast_2d l with
  | [] => Raise (ValueError "need at least one array to concatenate")
  | a :: l' =>
      if forallb (fun b => bool_decide (tail (nd_shape b) = tail (nd_shape a))) l'
      then Ok (NdArray
                 (sum_list (map (fun b => hd 0%nat (nd_shape b)) (a :: l'))
                    :: tail (nd_shape a))
                 (concat (map nd_data (a :: l'))))
      else Raise ForeignError
  end.

(** casadi turns a numpy array of at most two dimensions into a [DM]. *)
Definition cas_of_ndarray (a : ndarray) : result cmatrix :=
  match nd_shape a with
  | [n] => Ok (CMatrix n 1 (nd_data a))
  | [r; c] => Ok (CMatrix r c (flatten_F [r; c] (nd_data a)))
  | _ => Raise ForeignError
  end.

Definition as_casadi (v : value) : result (cas_kind * cmatrix) :=
  match v with
  | Cas k m => Ok (k, m)
  | Nd a => let* m := cas_of_ndarray a in Ok (DM, m)
  | Other _ => Raise ForeignError
  end.

(** A [DM] mixes with both symbolic kinds; [SX] and [MX] do not mix. *)
Definition kind_join (k1 k2 : cas_kind) : result cas_kind :=
  match k1, k2 with
  | DM, k | k, DM => Ok k
  | SX, SX => Ok SX
  | MX, MX => Ok MX
  | _, _ => Raise ForeignError
  end.

(** The kind of the concatenation of matrices of these kinds. *)
Fixpoint kinds_join (k : cas_kind) (l : list cas_kind) : result cas_kind :=
  match l with
  | [] => Ok k
  | k' :: l' => let* r := kinds_join k' l' in kind_join k r
  end.

(** One matrix on top of the other, for two matrices of one number of
    columns: column after column, the entries of the first and then those
    of the second. *)
Definition cas_stack (m1 m2 : cmatrix) : cmatrix :=
  CMatrix (nrow m1 + nrow m2) (ncol m1)
    (concat (zip_with app
               (chunks (ncol m1) (nrow m1) (entries m1))
               (chunks (ncol m2) (nrow m2) (entries m2)))).

Fixpoint cas_stack_all (m : cmatrix) (l : list cmatrix) : cmatrix :=
  match l with
  | [] => m
  | m' :: l' => cas_stack m (cas_stack_all m' l')
  end.

(** [casadi.vertcat(v, l...)], with at least one operand.  Operands of one
    number of columns are stacked; on the others the answer is the
    library's. *)
Definition vertcat (v : value) (l : list value) : result value :=
  let* km := as_casadi v in
  let* kms := mapM as_casadi l in
  let* k := kinds_join (fst km) (map fst kms) in
  if forallb (fun m => ncol m =? ncol (snd km))%nat (map snd kms)
  then Ok (Cas k (cas_stack_all (snd km) (map snd kms)))
  else let* m := vertcat_ragged k (snd km :: map snd kms) in Ok (Cas k m).

(** [m[0, 0]] on a casadi matrix: the matrix of one row and one column that
    holds its first entry; casadi refuses it on an empty matrix. *)
Definition cas_item00 (m : cmatrix) : result cmatrix :=
  if (0 <? nrow m)%nat && (0 <? ncol m)%nat
  then match entries m with
       | x :: _ => Ok (CMatrix 1 1 [x])
       | [] => Raise ForeignError
       end
  else Raise ForeignError.

(** [a[0, 0]] on a numpy array of two axes or more: what is left after the
    first two axes, at index 0 of both.  For an array of two axes this is a
    numpy scalar, an array without axes. *)
Definition np_item00 (a : ndarray) : result ndarray :=
  match nd_shape a with
  | d0 :: d1 :: rest =>
      if (0 <? d0)%nat && (0 <? d1)%nat
      then Ok (NdArray rest (take (size_of rest) (nd_data a)))
      else Raise IndexError
  | _ => Raise IndexError
  end.

End WithScalar.
Arguments ndarray : clear implicits.
Arguments cmatrix : clear implicits.
Arguments value : clear implicits.
Arguments Casadi : clear implicits.
End Numeric.

Import Numeric.

(** ** [penalty_helpers.py] *)

(** Modelled from the spec: the [QuadratureRule] enumeration of
    [misc/enums.py], a file that is not among the sources.  The spec lists
    the integration rules none, trapezoidal and approximate-trapezoidal; the
    last two are the members [penalty_helpers.py] names. *)
Inductive QuadratureRule : Type :=
| RULE_NONE
| TRAPEZOIDAL
| APPROXIMATE_TRAPEZOIDAL.

Definition rule_eqb (r1 r2 : QuadratureRule) : bool :=
  match r1, r2 with
  | RULE_NONE, RULE_NONE
  | TRAPEZOIDAL, TRAPEZOIDAL
  | APPROXIMATE_TRAPEZOIDAL, APPROXIMATE_TRAPEZOIDAL => true
  | _, _ => false
  end.

(** [r in (r1, ..., rn)] *)
Definition rule_in (r : QuadratureRule) (l : list QuadratureRule) : bool :=
  existsb (rule_eqb r) l.

(** [penalty.phase] is an [int] or a [list]. *)
Inductive phase_field : Type :=
| PhaseInt (i : Z)
| PhaseList (l : list Z).

(** The attributes of a penalty that the helpers read. *)
Module Penalty.
Record t {A : Type} : Type := Build {
  phase : phase_field;
  node_idx : list Z;
  target : option (list (ndarray A));
  weight : A;
  integration_rule : QuadratureRule;
  integrate : bool;
  derivative : bool;
  explicit_derivative : bool;
  transition : bool;
  multinode_penalty : bool;
  nodes_phase : list Z;
  multinode_idx : list Z
}.
Arguments t : clear implicits.
Arguments Build {A}.
End Penalty.

Module PenaltyHelpers.
Section WithScalar.

Context {A : Type} {inheritance : Inheritance} {casadi : Casadi A}.
Implicit Types (penalty : Penalty.t A) (m : value A).

Definition _get_multinode_indices penalty
  : result (list Z * list Z * list slice) :=
  if Penalty.transition penalty then
    if negb (length (Penalty.nodes_phase penalty) =? 2)%nat
       || negb (length (Penalty.multinode_idx penalty) =? 2)%nat
    then Raise (RuntimeError "Transition must have exactly 2 nodes and 2 phases")
    else
      let* phase1 := getitem (Penalty.nodes_phase penalty) 1 in
      let* phase0 := getitem (Penalty.nodes_phase penalty) 0 in
      let* node1 := getitem (Penalty.multinode_idx penalty) 1 in
      let* node0 := getitem (Penalty.multinode_idx penalty) 0 in
      Ok ([phase1; phase0], [node1; node0], [slice_last; slice_first])
  else
    Ok (Penalty.nodes_phase penalty,
        Penalty.multinode_idx penalty,
        replicate (length (Penalty.multinode_idx penalty)) slice_first).

(** The couplings [zip(phases, nodes, subnodes)] over which [states] and
    [controls] iterate. *)
Definition couplings penalty : result (list (Z * Z * slice)) :=
  let* r := _get_multinode_indices penalty in
  Ok (zip3 (fst (fst r)) (snd (fst r)) (snd r)).

Definition _reshape_to_vector m : result (value A) :=
  match m with
  | Cas k c => Ok (Cas k (cas_reshape_col c))
  | Nd a => Ok (Nd (np_reshape_col_F a))
  | Other _ => Raise (RuntimeError "Invalid type to reshape")
  end.

Definition ndarrays (v : list (value A)) : list (ndarray A) :=
  v ≫= (fun m => match m with Nd a => [a] | _ => [] end).

(** The argument is a [list] by its type, so the first test of the source
    cannot fail here. *)
Definition _vertcat (v : list (value A)) : result (value A) :=
  match v with
  | [] => Raise IndexError
  | v0 :: rest =>
      let data_type := type_of v0 in
      if forallb (fun tp => isinstance tp data_type) v then
        match v0 with
        | Cas _ _ => vertcat v0 rest
        | Nd _ => let* a := np_vstack (ndarrays v) in Ok (Nd a)
        | Other _ => Raise (RuntimeError "Invalid type to vertcat")
        end
      else Raise (ValueError "All elements of the list must be of the same type")
  end.

(** [isinstance(penalty.phase, list) and len(penalty.phase) > 1] *)
Definition several_phases (ph : phase_field) : bool :=
  match ph with
  | PhaseInt _ => false
  | PhaseList l => (1 <? length l)%nat
  end.

(** [0 if index is None else penalty.node_idx[index]] *)
Definition node_of penalty (index : option Z) : result Z :=
  match index with
  | None => Ok 0
  | Some i => getitem (Penalty.node_idx penalty) i
  end.

Definition phases_dt penalty (map_idx : list Z)
    (get_all_dt : list Z -> result (value A)) : result (value A) :=
  let* dt := get_all_dt map_idx in
  let* v := _reshape_to_vector dt in
  _reshape_to_vector v.

Definition states penalty (index : option Z)
    (get_state_decision : phase_field -> Z -> slice -> result (value A))
    (is_constructing_penalty : bool) : result (value A) :=
  if several_phases (Penalty.phase penalty) then
    Raise (NotImplementedError
             "penalty cost over multiple phases is not implemented yet")
  else
    let* index := node_of penalty index in
    if rule_in (Penalty.integration_rule penalty) [APPROXIMATE_TRAPEZOIDAL]
       || Penalty.integrate penalty
    then
      let* m := get_state_decision (Penalty.phase penalty) index slice_all in
      let* x := _reshape_to_vector m in
      if is_constructing_penalty then
        let* m1 := get_state_decision (Penalty.phase penalty) index slice_last in
        let* x1 := _reshape_to_vector m1 in
        vertcat x [x1]
      else
        let* m1 := get_state_decision (Penalty.phase penalty) (index + 1) slice_first in
        let* x1 := _reshape_to_vector m1 in
        vertcat x [x1]
    else if Penalty.derivative penalty || Penalty.explicit_derivative penalty
    then
      let* m0 := get_state_decision (Penalty.phase penalty) index slice_first in
      let* x0 := _reshape_to_vector m0 in
      let* x1 :=
        if is_constructing_penalty then
          let* m1 := get_state_decision (Penalty.phase penalty) index slice_last in
          _reshape_to_vector m1
        else
          let* m1 := get_state_decision (Penalty.phase penalty) (index + 1) slice_first in
          _reshape_to_vector m1 in
      if Penalty.derivative penalty then vertcat x1 [x0] else vertcat x0 [x1]
    else if Penalty.transition penalty || Penalty.multinode_penalty penalty
    then
      let* c := couplings penalty in
      let* x := mapM (fun pns : Z * Z * slice =>
                        let* m := get_state_decision
                                    (PhaseInt (fst (fst pns))) (snd (fst pns)) (snd pns) in
                        _reshape_to_vector m) c in
      _vertcat x
    else
      let* m := get_state_decision (Penalty.phase penalty) index slice_first in
      _reshape_to_vector m.

Definition controls penalty (index : option Z)
    (get_control_decision : phase_field -> Z -> slice -> result (value A))
  : result (value A) :=
  let* index := node_of penalty index in
  if Penalty.transition penalty || Penalty.multinode_penalty penalty then
    let* c := couplings penalty in
    let* u := mapM (fun pns : Z * Z * slice =>
                      let* m := get_control_decision
                                  (PhaseInt (fst (fst pns))) (snd (fst pns)) (snd pns) in
                      _reshape_to_vector m) c in
    _vertcat u
  else if Penalty.integrate penalty || Penalty.derivative penalty
          || Penalty.explicit_derivative penalty
  then
    let* m := get_control_decision (Penalty.phase penalty) index slice_all in
    _reshape_to_vector m
  else
    let* m := get_control_decision (Penalty.phase penalty) index slice_first in
    _reshape_to_vector m.

Definition parameters penalty (get_parameter : result (value A))
  : result (value A) :=
  let* p := get_parameter in
  _reshape_to_vector p.

Definition weight penalty : A := Penalty.weight penalty.

Definition target penalty (penalty_node_idx : Z) : result (ndarray A) :=
  match Penalty.target penalty with
  | None => Ok np_empty
  | Some tg =>
      if rule_in (Penalty.integration_rule penalty)
           [APPROXIMATE_TRAPEZOIDAL; TRAPEZOIDAL]
      then
        let* t0 := getitem tg 0 in
        let* target0 := np_index_last t0 penalty_node_idx in
        let* t1 := getitem tg 1 in
        let* target1 := np_index_last t1 penalty_node_idx in
        let* s := np_vstack [target0; target1] in
        Ok (np_T s)
      else
        let* t0 := getitem tg 0 in
        np_index_last t0 penalty_node_idx
  end.

(** What [o[0, 0]] gives on an object of a class that is neither a casadi
    matrix nor a numpy array is up to that class. *)
Context (item_of_other : string -> result (value A)).

(** [m[0, 0]] *)
Definition item00 m : result (value A) :=
  match m with
  | Cas k c => let* c' := cas_item00 c in Ok (Cas k c')
  | Nd a => let* a' := np_item00 a in Ok (Nd a')
  | Other cls => item_of_other cls
  end.

Definition t0 penalty (penalty_node_idx : Z)
    (get_t0 : phase_field -> Z -> result (value A)) : result (value A) :=
  let* phase_node :=
    if Penalty.transition penalty || Penalty.multinode_penalty penalty then
      let* r := _get_multinode_indices penalty in
      let* phase := getitem (fst (fst r)) 0 in
      let* node := getitem (snd (fst r)) 0 in
      Ok (PhaseInt phase, node)
    else
      let* node := getitem (Penalty.node_idx penalty) penalty_node_idx in
      Ok (Penalty.phase penalty, node) in
  let* m := get_t0 (fst phase_node) (snd phase_node) in
  item00 m.

End WithScalar.
End PenaltyHelpers.

(** ** [holonomic_constraints.py] *)

Module Holonomic.

(** The scalars with the operations the builder uses: the entries of the
    symbolic expressions, floats once the compiled functions are
    evaluated. *)
Class Scalar (K : Type) : Type := {
  zero : K;
  add : K -> K -> K;
  sub : K -> K -> K;
  mul : K -> K -> K
}.

(** casadi's own answers on sizes that do not fit, where the builder
    leaves the decision to the library. *)
Class Calls (K : Type) : Type := {
  (** A compiled function of an input of [n] entries, called with an
      argument of another number of entries: casadi fills the input from
      an argument of no entry or of one entry, and refuses the others. *)
  other_size : nat -> list K -> result (list K);
  (** Lines 73 to 83 for a model of [nb_q] coordinates and another number
      [nb_qdot] of velocities, from the rows of the jacobian: the jacobian
      function is called there on the velocities and its value multiplied
      by them, which casadi refuses but for some sizes below two. *)
  other_velocities :
    nat -> nat -> list (list K -> list K) ->
    result (list K -> list K -> list K -> result (list K))
}.

Section WithScalar.

Context {K : Type} {scalar : Scalar K} {calls : Calls K}.

(** A symbolic expression in the symbol [q]: its value at a point, and its
    partial derivatives with respect to [q] there, as casadi's automatic
    differentiation computes them. *)
Record expr : Type := Expr {
  eval : list K -> K;
  grad : list K -> list K
}.

Definition expr_sub (e1 e2 : expr) : expr :=
  Expr (fun q => sub (eval e1 q) (eval e2 q))
       (fun q => zip_with sub (grad e1 q) (grad e2 q)).

(** Modelled from the spec: what the builder reads of a
    [VariationalBiorbdModel], a class that is not among the sources.  The
    spec lists the counts of generalized coordinates and velocities, the
    lookup of a marker by its name and the position of a marker, a point of
    space: three expressions.  The lookup and the position may raise. *)
Record VariationalBiorbdModel : Type := {
  nb_q : nat;
  nb_qdot : nat;
  marker_index : string -> result Z;
  marker : Z -> result (expr * expr * expr)
}.

Definition components (m : expr * expr * expr) : list expr :=
  [fst (fst m); snd (fst m); snd m].

(** [jacobian(constraint, q_sym)]: one row of partial derivatives per
    component. *)
Definition jacobian (constraint : list expr) : list (list K -> list K) :=
  map grad constraint.

(** The product of a row of the jacobian and a vector.  casadi stores
    no entry of the jacobian that is zero by construction and skips its
    product; the sum differs by the sign of a zero at most, as long as the
    skipped product is zero: on a finite vector. *)
Definition dot (row v : list K) : K := foldr add zero (zip_with mul row v).

(** [M @ v] *)
Definition mtimes (M : list (list K)) (v : list K) : list K :=
  map (fun row => dot row v) M.

Definition vec_add (u v : list K) : list K := zip_with add u v.

(** [slice(0, 3)], the default [index]. *)
Definition default_index : slice := Slice (Some 0) (Some 3).

(** The bounds of [x[s]] on a casadi column of [n] entries, for a slice of
    step 1: an omitted bound is an end of the column, a negative bound
    counts from the end, and a bound outside of the range of a C [int] is
    read as omitted. *)
Definition first_bound (n : Z) (s : slice) : Z :=
  match start s with
  | Some b => if b <=? - 2 ^ 31 then 0 else if b <? 0 then b + n else b
  | None => 0
  end.

Definition last_bound (n : Z) (s : slice) : Z :=
  match stop s with
  | Some b => if 2 ^ 31 - 1 <=? b then n else if b <? 0 then b + n else b
  | None => n
  end.

(** [x[s]] on a casadi column.  Unlike a Python list, casadi refuses a
    slice that leaves the column. *)
Definition cas_getslice {T : Type} (l : list T) (s : slice) : result (list T) :=
  let n := Z.of_nat (length l) in
  let lo := first_bound n s in
  let hi := last_bound n s in
  if (hi <=? n) && (0 <=? lo)
  then Ok (take (Z.to_nat (hi - lo)) (drop (Z.to_nat lo) l))
  else Raise ForeignError.

(** An argument of a compiled function, for an input of [n] entries. *)
Definition argument (n : nat) (v : list K) : result (list K) :=
  if (length v =? n)%nat then Ok v else other_size n v.

(** The three compiled functions.  [MX.sym("q", nb_q, 1)] gives the first
    two one input of [nb_q] entries; the third has an input of [nb_q] and
    two of [nb_qdot] entries.  [expand()] changes the way a function is
    evaluated, not its values. *)
Definition superimpose_markers (biorbd_model : VariationalBiorbdModel)
    (marker_1 : string) (marker_2 : option string) (index : slice)
  : result ((list K -> result (list K))
            * (list K -> result (list (list K)))
            * (list K -> list K -> list K -> result (list K))) :=
  let* index_1 := marker_index biorbd_model marker_1 in
  let* position_1 := marker biorbd_model index_1 in
  let marker_1_sym := components position_1 in
  let* constraint :=
    match marker_2 with
    | Some marker_2 =>
        let* index_2 := marker_index biorbd_model marker_2 in
        let* position_2 := marker biorbd_model index_2 in
        let marker_2_sym := components position_2 in
        cas_getslice (zip_with expr_sub marker_1_sym marker_2_sym) index
    | None => cas_getslice marker_1_sym index
    end in
  let constraint_jacobian := jacobian constraint in
  let constraint_func := fun q =>
    let* q := argument (nb_q biorbd_model) q in
    Ok (map (fun e => eval e q) constraint) in
  let constraint_jacobian_func := fun q =>
    let* q := argument (nb_q biorbd_model) q in
    Ok (map (fun row => row q) constraint_jacobian) in
  let* constraint_double_derivative_func :=
    if (nb_q biorbd_model =? nb_qdot biorbd_model)%nat then
      Ok (fun q q_dot q_ddot =>
            let* q := argument (nb_q biorbd_model) q in
            let* q_dot := argument (nb_qdot biorbd_model) q_dot in
            let* q_ddot := argument (nb_qdot biorbd_model) q_ddot in
            Ok (vec_add
                  (mtimes (map (fun row => row q) constraint_jacobian) q_ddot)
                  (mtimes (map (fun row => row q_dot) constraint_jacobian) q_dot)))
    else
      other_velocities (nb_q biorbd_model) (nb_qdot biorbd_model)
        constraint_jacobian in
  Ok (constraint_func, constraint_jacobian_func, constraint_double_derivative_func).

End WithScalar.
Arguments expr K : clear implicits.
Arguments VariationalBiorbdModel K : clear implicits.
End Holonomic.

(** ** [stochastic_optimal_control_program.py] *)

Module MultinodeConstraintFcn.
Inductive t : Type :=
| M_EQUALS_INVERSE_OF_DG_DZ
| COVARIANCE_MATRIX_CONINUITY_IMPLICIT.
End MultinodeConstraintFcn.

Module ConstraintFcn.
Inductive t : Type :=
| COVARIANCE_MATRIX_CONINUITY_IMPLICIT
| A_EQUALS_DF_DX
| C_EQUALS_DF_DW.
End ConstraintFcn.

Module Node.
(** The one member of [Node] that the program names. *)
Inductive t : Type := ALL.
End Node.

Module Socp.
Section WithDynamics.

(** The dynamics functions and the noise magnitudes are passed along. *)
Context {Dyn W : Type}.

(** What the assemblers read of a phase: [nlp.ns] and
    [nlp.dynamics_type.dynamic_function]. *)
Record NonLinearProgram : Type := {
  ns : Z;
  dynamic_function : Dyn
}.

(** The arguments of one [MultinodeConstraintList.add]. *)
Record MultinodeConstraint : Type := {
  mc_fcn : MultinodeConstraintFcn.t;
  nodes_phase : Z * Z;
  nodes : Z * Z;
  dynamics : option Dyn;
  mc_wM_magnitude : W;
  mc_wS_magnitude : W
}.

(** The arguments of one [ConstraintList.add]. *)
Record Constraint : Type := {
  fcn : ConstraintFcn.t;
  node : Node.t;
  phase : Z;
  wM_magnitude : W;
  wS_magnitude : W
}.

Inductive OcpType : Type :=
| SOCP_EXPLICIT (wM_magnitude wS_magnitude : W)
| SOCP_IMPLICIT (wM_magnitude wS_magnitude : W)
| OTHER_TYPE.

(** [enumerate(l)] *)
Definition enumerate {T : Type} (l : list T) : list (Z * T) :=
  zip (range (Z.of_nat (length l))) l.

(** The body of the loop over the phases that constrains M: what one phase
    adds to the list. *)
Definition constrain_M (wM wS : W) (i_phase : Z) (nlp : NonLinearProgram)
  : list MultinodeConstraint :=
  map (fun i_node =>
         {| mc_fcn := MultinodeConstraintFcn.M_EQUALS_INVERSE_OF_DG_DZ;
            nodes_phase := (i_phase, i_phase);
            nodes := (i_node, i_node + 1);
            dynamics := Some (dynamic_function nlp);
            mc_wM_magnitude := wM;
            mc_wS_magnitude := wS |})
      (range (ns nlp - 1))
  ++ (if 0 <? i_phase
      then [ {| mc_fcn := MultinodeConstraintFcn.M_EQUALS_INVERSE_OF_DG_DZ;
                nodes_phase := (i_phase - 1, i_phase);
                nodes := (-1, 0);
                dynamics := Some (dynamic_function nlp);
                mc_wM_magnitude := wM;
                mc_wS_magnitude := wS |} ]
      else []).

(** The list handed to [add_or_replace_to_penalty_pool]. *)
Definition _prepare_stochastic_dynamics_explicit
    (nlp : list NonLinearProgram) (wM_magnitude wS_magnitude : W)
  : list MultinodeConstraint :=
  enumerate nlp ≫= (fun p => constrain_M wM_magnitude wS_magnitude (fst p) (snd p)).

Definition single_node (f : ConstraintFcn.t) (wM wS : W) (i_phase : Z)
  : Constraint :=
  {| fcn := f; node := Node.ALL; phase := i_phase;
     wM_magnitude := wM; wS_magnitude := wS |}.

(** The multi-node list, then the single-node list, as handed to
    [add_or_replace_to_penalty_pool]. *)
Definition _prepare_stochastic_dynamics_implicit
    (nlp : list NonLinearProgram) (wM_magnitude wS_magnitude : W)
  : list MultinodeConstraint * list Constraint :=
  let constrain_m :=
    enumerate nlp ≫= (fun p => constrain_M wM_magnitude wS_magnitude (fst p) (snd p)) in
  let constrain_p_multi :=
    enumerate nlp ≫= (fun p =>
      if 0 <? fst p
      then [ {| mc_fcn := MultinodeConstraintFcn.COVARIANCE_MATRIX_CONINUITY_IMPLICIT;
                nodes_phase := (fst p - 1, fst p);
                nodes := (-1, 0);
                dynamics := None;
                mc_wM_magnitude := wM_magnitude;
                mc_wS_magnitude := wS_magnitude |} ]
      else []) in
  let constrain_p :=
    map (fun p => single_node ConstraintFcn.COVARIANCE_MATRIX_CONINUITY_IMPLICIT
                    wM_magnitude wS_magnitude (fst p)) (enumerate nlp) in
  let constrain_a :=
    map (fun p => single_node ConstraintFcn.A_EQUALS_DF_DX
                    wM_magnitude wS_magnitude (fst p)) (enumerate nlp) in
  let constrain_c :=
    map (fun p => single_node ConstraintFcn.C_EQUALS_DF_DW
                    wM_magnitude wS_magnitude (fst p)) (enumerate nlp) in
  (constrain_m ++ constrain_p_multi, constrain_p ++ constrain_a ++ constrain_c).

(** The internal constraints that [_declare_multi_node_penalties] adds. *)
Definition internal_penalties (problem_type : OcpType)
    (nlp : list NonLinearProgram)
  : list MultinodeConstraint * list Constraint :=
  match problem_type with
  | SOCP_EXPLICIT wM wS => (_prepare_stochastic_dynamics_explicit nlp wM wS, [])
  | SOCP_IMPLICIT wM wS => _prepare_stochastic_dynamics_implicit nlp wM wS
  | OTHER_TYPE => ([], [])
  end.

End WithDynamics.
Arguments NonLinearProgram : clear implicits.
Arguments MultinodeConstraint : clear implicits.
Arguments Constraint : clear implicits.
Arguments OcpType : clear implicits.
End Socp.

(** Modelled from the spec: [Node.ALL] applies a constraint at every node of
    its phase.  The expansion of a node selector is in [penalty_option.py],
    which is not among the sources; the nodes of a phase are those that the
    pairs [(i, i + 1)] of the assemblers range over, [0] to [ns - 1]. *)
Definition selected_nodes (n : Node.t) (ns : Z) : list Z :=
  match n with
  | Node.ALL => range ns
  end.

(** *** The constructor, up to the calls into the base class *)

Module Init.

(** The Python objects a caller may pass for the two options. *)
Inductive pyobj : Type :=
| PInt (z : Z)
| PBool (b : bool)
| PStr (s : string)
| PNone.

(** [o != 1]; [True == 1] in Python. *)
Definition ne_one (o : pyobj) : bool :=
  match o with
  | PInt z => negb (z =? 1)
  | PBool b => negb b
  | PStr _ | PNone => true
  end.

(** The truth value of [o]. *)
Definition truthy (o : pyobj) : bool :=
  match o with
  | PInt z => negb (z =? 0)
  | PBool b => b
  | PStr s => negb (bool_decide (s = EmptyString))
  | PNone => false
  end.

(** The named parameters of [__init__], after [self]. *)
Definition named_parameters : list string :=
  [ "bio_model"; "dynamics"; "n_shooting"; "phase_time";
    "x_bounds"; "u_bounds"; "s_bounds"; "x_init"; "u_init"; "s_init";
    "objective_functions"; "constraints"; "parameters";
    "parameter_bounds"; "parameter_init"; "parameter_objectives";
    "parameter_constraints"; "external_forces"; "ode_solver";
    "control_type"; "variable_mappings"; "time_phase_mapping";
    "node_mappings"; "plot_mappings"; "phase_transitions";
    "multinode_constraints"; "multinode_objectives";
    "x_scaling"; "xdot_scaling"; "u_scaling"; "state_continuity_weight";
    "n_threads"; "use_sx"; "skip_continuity"; "assume_phase_dynamics";
    "integrated_value_functions"; "problem_type" ]%string.

(** How Python binds the keyword arguments of a call: a keyword that names
    a parameter goes to that parameter, and [**kwargs] receives the
    others.  An argument passed by position is bound like the keyword of its
    parameter. *)
Definition kwargs_of (keywords : gmap string pyobj) : gmap string pyobj :=
  foldr delete keywords named_parameters.

(** The value of a named parameter in the call, or its default. *)
Definition parameter (keywords : gmap string pyobj) (name : string)
    (default : pyobj) : pyobj :=
  match keywords !! name with
  | Some v => v
  | None => default
  end.

(** The attributes that the constructor has assigned by itself. *)
Record attributes : Type := {
  n_threads : Z;
  assume_phase_dynamics : bool
}.

(** What the constructor hands to [set_original_values] and
    [check_arguments_and_build_nlp] for the two options. *)
Record passed_on : Type := {
  arg_n_threads : pyobj;
  arg_assume_phase_dynamics : pyobj
}.

(** The two guards and the two assignments that open [__init__]. *)
Definition guards (kwargs : gmap string pyobj) : result attributes :=
  if match kwargs !! "n_thread"%string with
     | Some v => ne_one v
     | None => false
     end
  then Raise (ValueError
    "Multi-threading is not possible yet while solving a stochactic ocp.n_thread is set to 1 by default.")
  else
    let self_n_threads := 1 in
    if match kwargs !! "assume_phase_dynamics"%string with
       | Some v => truthy v
       | None => false
       end
    then Raise (ValueError
      "The dynamics cannot be assumed to be the same between phases with a stochactic ocp.assume_phase_dynamics is set to False by default.")
    else
      let self_assume_phase_dynamics := false in
      Ok {| n_threads := self_n_threads;
            assume_phase_dynamics := self_assume_phase_dynamics |}.

(** [__init__] from the call to the first call into the base class: the
    attributes assigned so far, and the values of [n_threads] and
    [assume_phase_dynamics] that the base class is about to receive. *)
Definition init_prologue (keywords : gmap string pyobj)
  : result (attributes * passed_on) :=
  let* self := guards (kwargs_of keywords) in
  Ok (self,
      {| arg_n_threads := parameter keywords "n_threads" (PInt 1);
         arg_assume_phase_dynamics :=
           parameter keywords "assume_phase_dynamics" (PBool false) |}).

End Init.

(** ** Vocabulary of the properties *)

Section Vocabulary.
Context {A : Type}.

(** A casadi matrix of one column, or a numpy array of shape [(n, 1)] that
    holds [n] entries. *)
Definition is_column_vector (m : value A) : bool :=
  match m with
  | Cas _ c => (ncol c =? 1)%nat
  | Nd a =>
      match nd_shape a with
      | [n; 1%nat] => (length (nd_data a) =? n)%nat
      | _ => false
      end
  | Other _ => false
  end.

(** An array holds as many entries as its shape says. *)
Definition well_formed (m : value A) : Prop :=
  match m with
  | Nd a => nd_wf a
  | _ => True
  end.

(** The entries of a matrix in column-major order. *)
Definition column_major (m : value A) : list A :=
  match m with
  | Cas _ c => entries c
  | Nd a => flatten_F (nd_shape a) (nd_data a)
  | Other _ => []
  end.

(** A casadi matrix of one column that holds as many entries as it has
    rows. *)
Definition is_column (m : cmatrix A) : Prop :=
  ncol m = 1%nat /\ length (entries m) = nrow m.

(** One slice of the decision variables, fetched and made a vector. *)
Definition fetch (get : phase_field -> Z -> slice -> result (value A))
    (ph : phase_field) (node : Z) (sub : slice) : result (value A) :=
  let* m := get ph node sub in
  PenaltyHelpers._reshape_to_vector m.

(** The second slice of an integrated or derivative penalty: the last
    sub-step of the node while the penalty is constructed, the first
    sub-step of the next node afterwards. *)
Definition second_slice (get : phase_field -> Z -> slice -> result (value A))
    (ph : phase_field) (node : Z) (is_constructing_penalty : bool)
  : result (value A) :=
  if is_constructing_penalty
  then fetch get ph node slice_last
  else fetch get ph (node + 1) slice_first.

End Vocabulary.

(** ** Concrete penalties and decision variables *)

Module Sample.

(** A penalty of phase 0 on the nodes 0, 1 and 2, without target, with the
    given integration rule and flags; as a transition or multi-node
    penalty it couples node 4 of phase 0 with node 0 of phase 1. *)
Definition penalty (rule : QuadratureRule)
    (integrate derivative explicit_derivative transition multinode_penalty : bool)
  : Penalty.t Z :=
  Penalty.Build (PhaseInt 0) [0; 1; 2] None 1 rule
    integrate derivative explicit_derivative transition multinode_penalty
    [0; 1] [4; 0].

(** A multi-node penalty over three declared pairs. *)
Definition multinode : Penalty.t Z :=
  Penalty.Build (PhaseInt 0) [] None 1 RULE_NONE
    false false false false true [0; 0; 1] [0; 2; 3].

(** Decision variables of two states and two sub-steps per node: state [s]
    at sub-step [k] of node [n] is [100 n + 10 k + s], and [100 n + 20 + s]
    at the end of the interval of node [n]. *)
Definition get_state_decision (ph : phase_field) (n : Z) (sub : slice)
  : result (value Z) :=
  match start sub, stop sub with
  | Some 0, None =>
      Ok (Cas MX (CMatrix 2 2 [100 * n; 100 * n + 1; 100 * n + 10; 100 * n + 11]))
  | Some 0, Some 1 =>
      Ok (Cas MX (CMatrix 2 1 [100 * n; 100 * n + 1]))
  | Some (-1), None =>
      Ok (Cas MX (CMatrix 2 1 [100 * n + 20; 100 * n + 21]))
  | _, _ => Raise IndexError
  end.

(** A penalty of phase 0 on the nodes 0, 1 and 2 that tracks the target
    arrays [tg] with the given integration rule. *)
Definition tracking (rule : QuadratureRule) (tg : list (ndarray Z))
  : Penalty.t Z :=
  Penalty.Build (PhaseInt 0) [0; 1; 2] (Some tg) 1 rule
    false false false false false [] [].

(** Two target arrays of two rows and three nodes. *)
Definition target_0 : ndarray Z := NdArray [2%nat; 3%nat] [1; 2; 3; 4; 5; 6].
Definition target_1 : ndarray Z := NdArray [2%nat; 3%nat] [11; 12; 13; 14; 15; 16].

(** A plain penalty declared over the phases 0 and 1. *)
Definition over_two_phases : Penalty.t Z :=
  Penalty.Build (PhaseList [0; 1]) [0; 1; 2] None 1 RULE_NONE
    false false false false false [] [].

(** A multi-node penalty without declared nodes. *)
Definition uncoupled : Penalty.t Z :=
  Penalty.Build (PhaseInt 0) [0; 1; 2] None 1 RULE_NONE
    false false false false true [] [].

(** The time at the start of a node, as a numpy array of one row and one
    column: [1000 p + n] at node [n] of phase [p]. *)
Definition get_t0 (ph : phase_field) (n : Z) : result (value Z) :=
  match ph with
  | PhaseInt p => Ok (Nd (NdArray [1%nat; 1%nat] [1000 * p + n]))
  | PhaseList _ => Raise IndexError
  end.

(** Objects of other classes do not take [[0, 0]]. *)
Definition item_of_other (cls : string) : result (value Z) :=
  Raise ForeignError.

(** The durations of the phases listed in [map_idx], as a numpy array of one
    row. *)
Definition get_all_dt (map_idx : list Z) : result (value Z) :=
  Ok (Nd (NdArray [1%nat; length map_idx] (map (fun i => 10 + i) map_idx))).

(** The classes of the sample program: every class derives from [object],
    and [bool] from [int]. *)
#[global] Instance inheritance : Inheritance :=
  {| derives c name :=
       String.eqb name "object"
       || bool_decide (c = ClassOther "bool") && String.eqb name "int" |}.

(** A casadi that skips the operands of no row and no column, and refuses
    the operands that are left when they differ in their columns. *)
#[global] Instance casadi : Casadi Z :=
  {| vertcat_ragged k ms :=
       match List.filter (fun m => negb ((nrow m =? 0)%nat && (ncol m =? 0)%nat)) ms with
       | [] => Ok (CMatrix 0 0 [])
       | m :: l =>
           if forallb (fun m' => ncol m' =? ncol m)%nat l
           then Ok (cas_stack_all m l)
           else Raise ForeignError
       end |}.

End Sample.

Module HolonomicExample.
Import Holonomic.

(** The integers, and the floats of the compiled functions. *)
#[global] Instance integers : Scalar Z :=
  {| zero := 0; add := Z.add; sub := Z.sub; mul := Z.mul |}.

#[global] Instance floats : Scalar float :=
  {| zero := PrimFloat.zero; add := PrimFloat.add;
     sub := PrimFloat.sub; mul := PrimFloat.mul |}.

(** A casadi that fills an input from an argument of no entry or of one
    entry, refuses the arguments of the other sizes, and refuses a model
    that has not as many velocities as coordinates. *)
Definition sample_calls {K : Type} {scalar : Scalar K} : Calls K :=
  {| other_size n v :=
       match v with
       | [] => Ok (replicate n zero)
       | [x] => Ok (replicate n x)
       | _ => Raise ForeignError
       end;
     other_velocities _ _ _ := Raise ForeignError |}.

#[global] Instance integer_calls : Calls Z := sample_calls.
#[global] Instance float_calls : Calls float := sample_calls.

Section Model.
Context {K : Type} {scalar : Scalar K} (one : K).

(** Two degrees of freedom and two markers: the hand at [(q0, q1, 0)], the
    elbow at [(q0 q1, q0, q1)]. *)
Definition coordinate (i : nat) : expr K :=
  Expr (fun q => nth i q zero)
       (fun q => map (fun j => if (j =? i)%nat then one else zero) (seq 0 (length q))).

Definition product : expr K :=
  Expr (fun q => mul (nth 0 q zero) (nth 1 q zero))
       (fun q => [nth 1 q zero; nth 0 q zero]).

Definition origin_height : expr K :=
  Expr (fun _ => zero) (fun q => map (fun _ => zero) q).

Definition model : VariationalBiorbdModel K :=
  {| nb_q := 2;
     nb_qdot := 2;
     marker_index := fun name =>
       if String.eqb name "hand" then Ok 0
       else if String.eqb name "elbow" then Ok 1
       else Raise (ValueError "no such marker");
     marker := fun i =>
       if i =? 0 then Ok (coordinate 0, coordinate 1, origin_height)
       else if i =? 1 then Ok (product, coordinate 0, coordinate 1)
       else Raise IndexError |}.

End Model.

(** The floats that are neither infinite nor [nan], the two float zeros,
    and the floats that compare equal or are both [nan]. *)
Definition finite (x : float) : Prop := PrimFloat.is_finite x = true.
Definition null (x : float) : Prop := PrimFloat.is_zero x = true.
Definition alike (x y : float) : Prop :=
  PrimFloat.is_nan x && PrimFloat.is_nan y || PrimFloat.eqb x y = true.

End HolonomicExample.

(** Vocabulary for the properties of the builder. *)
Section HolonomicVocabulary.
Import Holonomic.
Context {K : Type} {scalar : Scalar K} {calls : Calls K}.
Implicit Types (biorbd_model : VariationalBiorbdModel K) (index : slice)
  (q : list K) (c : list (expr K)).

(** The symbolic constraint of lines 43 to 51, when the markers are found
    and casadi accepts the slice. *)
Inductive selects biorbd_model (marker_1 : string)
  : option string -> slice -> list (expr K) -> Prop :=
| selects_one index (index_1 : Z) position_1 c :
    marker_index biorbd_model marker_1 = Ok index_1 ->
    marker biorbd_model index_1 = Ok position_1 ->
    cas_getslice (components position_1) index = Ok c ->
    selects biorbd_model marker_1 None index c
| selects_two marker_2 index (index_1 : Z) position_1 (index_2 : Z) position_2 c :
    marker_index biorbd_model marker_1 = Ok index_1 ->
    marker biorbd_model index_1 = Ok position_1 ->
    marker_index biorbd_model marker_2 = Ok index_2 ->
    marker biorbd_model index_2 = Ok position_2 ->
    cas_getslice (zip_with expr_sub (components position_1) (components position_2))
      index = Ok c ->
    selects biorbd_model marker_1 (Some marker_2) index c.

(** The three functions compiled from the symbolic constraint [c]. *)
Definition compiled biorbd_model c
    (constraint_func : list K -> result (list K))
    (constraint_jacobian_func : list K -> result (list (list K)))
    (constraint_double_derivative_func : list K -> list K -> list K -> result (list K))
  : Prop :=
  (forall q, constraint_func q
             = (let* q := argument (nb_q biorbd_model) q in
                Ok (map (fun e => eval e q) c)))
  /\ (forall q, constraint_jacobian_func q
                = (let* q := argument (nb_q biorbd_model) q in
                   Ok (map (fun e => grad e q) c)))
  /\ (nb_q biorbd_model = nb_qdot biorbd_model ->
      forall q q_dot q_ddot,
        constraint_double_derivative_func q q_dot q_ddot
        = (let* q := argument (nb_q biorbd_model) q in
           let* q_dot := argument (nb_qdot biorbd_model) q_dot in
           let* q_ddot := argument (nb_qdot biorbd_model) q_ddot in
           Ok (vec_add (mtimes (map (fun e => grad e q) c) q_ddot)
                       (mtimes (map (fun e => grad e q_dot) c) q_dot)))).

End HolonomicVocabulary.

Section SocpVocabulary.
Context {Dyn W : Type}.
Implicit Types (c : Socp.MultinodeConstraint Dyn W) (s : Socp.Constraint W).

Definition count {T : Type} (f : T -> bool) (l : list T) : nat :=
  length (List.filter f l).

Definition is_M c : bool :=
  match Socp.mc_fcn c with
  | MultinodeConstraintFcn.M_EQUALS_INVERSE_OF_DG_DZ => true
  | MultinodeConstraintFcn.COVARIANCE_MATRIX_CONINUITY_IMPLICIT => false
  end.

(** Both nodes in one phase, the second right after the first. *)
Definition intra_phase c : bool :=
  (fst (Socp.nodes_phase c) =? snd (Socp.nodes_phase c))
  && (snd (Socp.nodes c) =? fst (Socp.nodes c) + 1).

Definition in_phase (i : Z) c : bool :=
  (fst (Socp.nodes_phase c) =? i) && (snd (Socp.nodes_phase c) =? i).

(** The last node of a phase with the first node of the next phase. *)
Definition boundary c : bool :=
  (snd (Socp.nodes_phase c) =? fst (Socp.nodes_phase c) + 1)
  && (fst (Socp.nodes c) =? -1) && (snd (Socp.nodes c) =? 0).

Definition fcn_eqb (f g : ConstraintFcn.t) : bool :=
  match f, g with
  | ConstraintFcn.COVARIANCE_MATRIX_CONINUITY_IMPLICIT,
    ConstraintFcn.COVARIANCE_MATRIX_CONINUITY_IMPLICIT
  | ConstraintFcn.A_EQUALS_DF_DX, ConstraintFcn.A_EQUALS_DF_DX
  | ConstraintFcn.C_EQUALS_DF_DW, ConstraintFcn.C_EQUALS_DF_DW => true
  | _, _ => false
  end.

(** [enumerate] counting from [k]. *)
Definition enumerate_from {T : Type} (k : nat) (l : list T) : list (Z * T) :=
  zip (map Z.of_nat (seq k (length l))) l.

(** The nodes of phase [i] at which the single-node constraints of kind [f]
    of a list apply. *)
Definition applied_nodes (nlp : list (Socp.NonLinearProgram Dyn))
    (f : ConstraintFcn.t) (i : Z) (l : list (Socp.Constraint W)) : list Z :=
  List.filter (fun s => fcn_eqb (Socp.fcn s) f && (Socp.phase s =? i)) l
  ≫= (fun s =>
        match nlp !! Z.to_nat (Socp.phase s) with
        | Some p => selected_nodes (Socp.node s) (Socp.ns p)
        | None => []
        end).

End SocpVocabulary.

(** * Properties *)

(** ** The matrix libraries *)

Section NumericFacts.
Context {A : Type}.
Implicit Types (l data : list A) (rows : list (list A)).

Lemma bind_take1_singletons l : (map (fun x => [x]) l) ≫= take 1 = l.
Proof. induction l as [|x l IH]; simpl; [reflexivity|]. f_equal. exact IH. Qed.

Lemma chunks_1 n l : length l = n -> chunks n 1 l = map (fun x => [x]) l.
Proof.
  revert l; induction n as [|n IH]; intros [|x l] Hl; simpl in *; try discriminate; try reflexivity.
  f_equal. rewrite drop_0. apply IH. lia.
Qed.

Lemma columns_1_singletons l : columns 1 (map (fun x => [x]) l) = [l].
Proof. cbn [columns]. f_equal. apply bind_take1_singletons. Qed.

Lemma flatten_F_vector n data :
  length data = n -> flatten_F [n] data = data.
Proof.
  intros Hl. cbn [flatten_F size_of foldr].
  rewrite chunks_1 by exact Hl.
  rewrite map_map. cbn [flatten_F]. rewrite columns_1_singletons.
  apply app_nil_r.
Qed.

Lemma flatten_F_column n data :
  length data = n -> flatten_F [n; 1%nat] data = data.
Proof.
  intros Hl. cbn [flatten_F size_of foldr]. cbn [Nat.mul Nat.add].
  rewrite chunks_1 by exact Hl.
  rewrite map_map.
  rewrite (map_ext _ (fun x => [x])).
  - rewrite columns_1_singletons. apply app_nil_r.
  - intros x. reflexivity.
Qed.

Lemma chunks_length n k l : length (chunks n k l) = n.
Proof. revert l; induction n as [|n IH]; intros l; simpl; [reflexivity|]. now rewrite IH. Qed.

Lemma chunks_Forall_length n k l :
  length l = (n * k)%nat -> Forall (fun c => length c = k) (chunks n k l).
Proof.
  revert l; induction n as [|n IH]; intros l Hl; simpl; constructor.
  - rewrite length_take. lia.
  - apply IH. rewrite length_drop. lia.
Qed.

Lemma length_bind_take1 rows :
  Forall (fun r => (1 <= length r)%nat) rows ->
  length (rows ≫= take 1) = length rows.
Proof.
  induction 1 as [|r rows Hr _ IH]; [reflexivity|].
  rewrite bind_cons, length_app, length_take, IH.
  rewrite Nat.min_l by exact Hr. reflexivity.
Qed.

Lemma columns_total_length k rows :
  Forall (fun r => (k <= length r)%nat) rows ->
  length (concat (columns k rows)) = (k * length rows)%nat.
Proof.
  revert rows; induction k as [|k IH]; intros rows Hrows; [reflexivity|].
  cbn [columns concat].
  rewrite length_app, length_bind_take1, IH, length_map.
  - lia.
  - apply Forall_map. eapply Forall_impl; [exact Hrows|].
    intros r Hr. cbv beta in *. rewrite length_drop. lia.
  - eapply Forall_impl; [exact Hrows|]. intros r Hr. cbv beta in *. lia.
Qed.

Lemma flatten_F_length shape data :
  length data = size_of shape ->
  length (flatten_F shape data) = size_of shape.
Proof.
  revert data; induction shape as [|d rest IH]; intros data Hl; [exact Hl|].
  cbn [flatten_F]. cbn [size_of foldr] in *. fold (size_of rest) in *.
  rewrite columns_total_length.
  - rewrite length_map, chunks_length. lia.
  - apply Forall_map.
    eapply Forall_impl; [apply chunks_Forall_length; exact Hl|].
    intros c Hc. cbv beta in *. rewrite IH by exact Hc. lia.
Qed.
End NumericFacts.

(** ** The multi-node index resolver *)

Section MultinodeIndices.
Context {A : Type}.
Implicit Types penalty : Penalty.t A.
Import PenaltyHelpers.

Lemma getitem_nth {T : Type} (l : list T) (i : nat) (d : T) :
  (i < length l)%nat -> getitem l (Z.of_nat i) = Ok (nth i l d).
Proof.
  intros Hi. unfold getitem.
  destruct (Z.ltb_spec (Z.of_nat i) 0) as [Hneg|_]; [lia|].
  destruct (Z.leb_spec 0 (Z.of_nat i)) as [_|Hneg]; [|lia].
  destruct (Z.ltb_spec (Z.of_nat i) (Z.of_nat (length l))) as [_|Hge]; [|lia].
  cbn [andb]. rewrite Nat2Z.id.
  destruct (l !! i) as [x|] eqn:Hx.
  - f_equal. symmetry. apply nth_lookup_Some with (d := d) in Hx. exact Hx.
  - apply lookup_ge_None in Hx. lia.
Qed.

Lemma zip3_replicate {T U V : Type} (a : list T) (b : list U) (s : V) :
  zip3 a b (replicate (length b) s) = map (fun pn => (fst pn, snd pn, s)) (zip a b).
Proof.
  revert b; induction a as [|x a IH]; intros [|y b]; simpl; try reflexivity.
  f_equal. apply IH.
Qed.

(** C1. A transition penalty whose [nodes_phase] and [multinode_idx] both
    have two entries resolves to the two couplings in reversed order, the
    entry of index 1 at its last sub-step and then the entry of index 0 at
    its first sub-step.  A multi-node penalty that is not a transition
    resolves to the declared pairs in their order, each at its first
    sub-step. *)
Theorem multinode_indices_resolved penalty :
  (Penalty.transition penalty = true ->
   length (Penalty.nodes_phase penalty) = 2%nat ->
   length (Penalty.multinode_idx penalty) = 2%nat ->
   _get_multinode_indices penalty
     = Ok ([nth 1 (Penalty.nodes_phase penalty) 0; nth 0 (Penalty.nodes_phase penalty) 0],
           [nth 1 (Penalty.multinode_idx penalty) 0; nth 0 (Penalty.multinode_idx penalty) 0],
           [slice_last; slice_first])
   /\ couplings penalty
      = Ok [ (nth 1 (Penalty.nodes_phase penalty) 0,
              nth 1 (Penalty.multinode_idx penalty) 0, slice_last);
             (nth 0 (Penalty.nodes_phase penalty) 0,
              nth 0 (Penalty.multinode_idx penalty) 0, slice_first) ])
  /\
  (Penalty.transition penalty = false ->
   Penalty.multinode_penalty penalty = true ->
   _get_multinode_indices penalty
     = Ok (Penalty.nodes_phase penalty, Penalty.multinode_idx penalty,
           replicate (length (Penalty.multinode_idx penalty)) slice_first)
   /\ couplings penalty
      = Ok (map (fun pn => (fst pn, snd pn, slice_first))
              (zip (Penalty.nodes_phase penalty) (Penalty.multinode_idx penalty)))).
Proof.
  split.
  - intros Ht Hp Hn.
    assert (Hres : _get_multinode_indices penalty
      = Ok ([nth 1 (Penalty.nodes_phase penalty) 0; nth 0 (Penalty.nodes_phase penalty) 0],
            [nth 1 (Penalty.multinode_idx penalty) 0; nth 0 (Penalty.multinode_idx penalty) 0],
            [slice_last; slice_first])).
    { unfold _get_multinode_indices. rewrite Ht, Hp, Hn. cbn [Nat.eqb negb orb].
      rewrite (getitem_nth _ 1 0) by lia.
      rewrite (getitem_nth _ 0 0) by lia.
      rewrite (getitem_nth _ 1 0) by lia.
      rewrite (getitem_nth _ 0 0) by lia.
      reflexivity. }
    split; [exact Hres|].
    unfold couplings. rewrite Hres. reflexivity.
  - intros Ht _.
    assert (Hres : _get_multinode_indices penalty
      = Ok (Penalty.nodes_phase penalty, Penalty.multinode_idx penalty,
            replicate (length (Penalty.multinode_idx penalty)) slice_first)).
    { unfold _get_multinode_indices. rewrite Ht. reflexivity. }
    split; [exact Hres|].
    unfold couplings. rewrite Hres. cbn [bind fst snd].
    f_equal. apply zip3_replicate.
Qed.

End MultinodeIndices.

(** ** The reshaping utility *)

Section Reshape.
Context {A : Type}.
Implicit Types m : value A.
Import PenaltyHelpers.

Lemma reshape_column_vector m :
  is_column_vector m = true -> _reshape_to_vector m = Ok m.
Proof.
  destruct m as [k [r c e]|[shape data]|cls]; cbn [is_column_vector]; intros H.
  - apply Nat.eqb_eq in H. cbn [ncol] in H. subst c.
    cbn [_reshape_to_vector]. unfold cas_reshape_col. cbn [nrow ncol entries].
    now rewrite Nat.mul_1_r.
  - cbn [nd_shape nd_data] in H.
    destruct shape as [|n [|[|[|one]] [|? ?]]]; try discriminate H.
    apply Nat.eqb_eq in H.
    cbn [_reshape_to_vector]. unfold np_reshape_col_F. cbn [nd_shape nd_data].
    rewrite flatten_F_column by exact H.
    cbn [size_of foldr]. now rewrite !Nat.mul_1_r.
  - discriminate H.
Qed.

Lemma reshape_is_column_vector m v :
  well_formed m -> _reshape_to_vector m = Ok v -> is_column_vector v = true.
Proof.
  destruct m as [k c|a|cls]; cbn [_reshape_to_vector well_formed]; intros Hwf Hv.
  - injection Hv as <-. apply Nat.eqb_refl.
  - injection Hv as <-. cbn [is_column_vector np_reshape_col_F nd_shape nd_data].
    apply Nat.eqb_eq. apply flatten_F_length. exact Hwf.
  - discriminate Hv.
Qed.

(** Reshaping any supported, well-formed matrix twice is reshaping it
    once. *)
Lemma reshape_twice m :
  well_formed m ->
  (let* v := _reshape_to_vector m in _reshape_to_vector v) = _reshape_to_vector m.
Proof.
  intros Hwf. destruct (_reshape_to_vector m) as [v|e] eqn:Hv; [|reflexivity].
  cbn [bind]. apply reshape_column_vector.
  eapply reshape_is_column_vector; eassumption.
Qed.

Lemma reshape_column_major m v :
  well_formed m -> _reshape_to_vector m = Ok v -> column_major v = column_major m.
Proof.
  destruct m as [k c|a|cls]; cbn [_reshape_to_vector well_formed]; intros Hwf Hv.
  - injection Hv as <-. reflexivity.
  - injection Hv as <-. cbn [column_major np_reshape_col_F nd_shape nd_data].
    apply flatten_F_column. apply flatten_F_length. exact Hwf.
  - discriminate Hv.
Qed.

(** C9. On a supported input that is already a column vector the reshaping
    utility returns that vector, so that reshaping it twice gives what
    reshaping it once gives. *)
Theorem reshape_to_vector_idempotent m :
  is_column_vector m = true ->
  _reshape_to_vector m = Ok m
  /\ (let* v := _reshape_to_vector m in _reshape_to_vector v) = _reshape_to_vector m.
Proof.
  intros Hcol. pose proof (reshape_column_vector m Hcol) as Hm.
  split; [exact Hm|]. rewrite Hm. cbn [bind]. exact Hm.
Qed.

(** X4. [phases_dt] reshapes its vector twice: on a well-formed matrix it
    returns what one reshaping returns. *)
Lemma phases_dt_reshapes_once (penalty : Penalty.t A) map_idx get_all_dt dt :
  get_all_dt map_idx = Ok dt -> well_formed dt ->
  phases_dt penalty map_idx get_all_dt = _reshape_to_vector dt.
Proof.
  intros Hdt Hwf. unfold phases_dt. rewrite Hdt. cbn [bind].
  now apply reshape_twice.
Qed.

End Reshape.

(** ** The target of a penalty *)

Section Target.
Context {A : Type}.
Import PenaltyHelpers.

(** C8. Without a configured target, [target] returns an array of length
    zero at every node index. *)
Theorem target_none_is_empty (penalty : Penalty.t A) (penalty_node_idx : Z) :
  Penalty.target penalty = None ->
  exists a, target penalty penalty_node_idx = Ok a
            /\ nd_shape a = [0%nat] /\ nd_data a = [] /\ size_of (nd_shape a) = 0%nat.
Proof.
  intros Hnone. exists np_empty. unfold target. rewrite Hnone.
  repeat split.
Qed.
End Target.

(** ** The slices of the states *)

Section States.
Context {A : Type} {inheritance : Inheritance} {casadi : Casadi A}.
Implicit Types (penalty : Penalty.t A)
  (get : phase_field -> Z -> slice -> result (value A)).
Import PenaltyHelpers.

Lemma bind_assoc {T U V : Type} (c : result T) (f : T -> result U)
    (g : U -> result V) :
  (let* y := (let* x := c in f x) in g y) = (let* x := c in let* y := f x in g y).
Proof. destruct c; reflexivity. Qed.

(** The test of the first branch of [states]. *)
Lemma integrated_test penalty :
  Penalty.integration_rule penalty = APPROXIMATE_TRAPEZOIDAL
  \/ Penalty.integrate penalty = true ->
  rule_in (Penalty.integration_rule penalty) [APPROXIMATE_TRAPEZOIDAL]
  || Penalty.integrate penalty = true.
Proof.
  intros [Hr|Hi].
  - rewrite Hr. reflexivity.
  - rewrite Hi. apply orb_true_r.
Qed.

Lemma not_integrated_test penalty :
  Penalty.integration_rule penalty <> APPROXIMATE_TRAPEZOIDAL ->
  Penalty.integrate penalty = false ->
  rule_in (Penalty.integration_rule penalty) [APPROXIMATE_TRAPEZOIDAL]
  || Penalty.integrate penalty = false.
Proof.
  intros Hr Hi. rewrite Hi.
  destruct (Penalty.integration_rule penalty); try reflexivity.
  now contradiction Hr.
Qed.

(** C2, as the code has it.  For a penalty of one phase whose integration
    rule is approximate-trapezoidal or whose [integrate] flag is set,
    [states] returns the whole current node on top of the second slice:
    the first sub-step of the next node, or the last sub-step of the
    current node while the penalty is constructed. *)
Theorem states_integrated penalty index get is_constructing_penalty node :
  several_phases (Penalty.phase penalty) = false ->
  Penalty.integration_rule penalty = APPROXIMATE_TRAPEZOIDAL
  \/ Penalty.integrate penalty = true ->
  node_of penalty index = Ok node ->
  states penalty index get is_constructing_penalty
  = (let* x := fetch get (Penalty.phase penalty) node slice_all in
     let* x1 := second_slice get (Penalty.phase penalty) node is_constructing_penalty in
     vertcat x [x1]).
Proof.
  intros Hph Hint Hnode. unfold states.
  rewrite Hph, Hnode. cbn [bind].
  rewrite (integrated_test penalty Hint).
  unfold second_slice, fetch.
  destruct (get (Penalty.phase penalty) node slice_all) as [m|e]; [|reflexivity].
  cbn [bind]. destruct (_reshape_to_vector m) as [x|e]; [|reflexivity].
  cbn [bind]. destruct is_constructing_penalty; rewrite !bind_assoc; reflexivity.
Qed.


(** X8. For a plain penalty of one phase, [states] is one fetch: the first
    sub-step of the node, with no concatenation. *)
Lemma states_plain penalty index get is_constructing_penalty node :
  several_phases (Penalty.phase penalty) = false ->
  Penalty.integration_rule penalty <> APPROXIMATE_TRAPEZOIDAL ->
  Penalty.integrate penalty = false ->
  Penalty.derivative penalty = false ->
  Penalty.explicit_derivative penalty = false ->
  Penalty.transition penalty = false ->
  Penalty.multinode_penalty penalty = false ->
  node_of penalty index = Ok node ->
  states penalty index get is_constructing_penalty
  = fetch get (Penalty.phase penalty) node slice_first.
Proof.
  intros Hph Hrule Hint Hd He Ht Hm Hnode. unfold states.
  rewrite Hph, Hnode. cbn [bind].
  rewrite (not_integrated_test penalty Hrule Hint), Hd, He, Ht, Hm.
  reflexivity.
Qed.

(** X9. A penalty whose phase is a list of several phases is refused by
    [states] with a [NotImplementedError], whatever its kind and index. *)
Lemma states_several_phases penalty index get is_constructing_penalty :
  several_phases (Penalty.phase penalty) = true ->
  exists msg, states penalty index get is_constructing_penalty
              = Raise (NotImplementedError msg).
Proof. intros Hph. unfold states. rewrite Hph. eauto. Qed.

End States.

(** ** Vertical concatenation of column vectors *)

Section Vertcat.
Context {A : Type} {inheritance : Inheritance} {casadi : Casadi A}.
Implicit Types (m : cmatrix A) (k : cas_kind).

Lemma chunks_one_column n (l : list A) :
  length l = n -> chunks 1 n l = [l].
Proof.
  intros Hl. cbn [chunks]. f_equal. apply take_ge. lia.
Qed.

(** Two casadi columns: the entries of the first, then those of the
    second. *)
Lemma vertcat_column_vectors k1 k2 k m1 m2 :
  ncol m1 = 1%nat -> ncol m2 = 1%nat ->
  length (entries m1) = nrow m1 -> length (entries m2) = nrow m2 ->
  kind_join k1 k2 = Ok k ->
  vertcat (Cas k1 m1) [Cas k2 m2]
  = Ok (Cas k (CMatrix (nrow m1 + nrow m2) 1 (entries m1 ++ entries m2))).
Proof.
  intros Hc1 Hc2 Hl1 Hl2 Hk.
  unfold vertcat. cbn [as_casadi mapM bind fst snd map kinds_join].
  rewrite Hk. cbn [bind forallb]. rewrite Hc1, Hc2. cbn [Nat.eqb andb].
  cbn [cas_stack_all]. unfold cas_stack. rewrite Hc1, Hc2.
  rewrite !chunks_one_column by assumption.
  cbn [zip_with concat]. now rewrite app_nil_r.
Qed.

Lemma kind_join_same k : kind_join k k = Ok k.
Proof. destruct k; reflexivity. Qed.

End Vertcat.

(** ** The helpers on concrete penalties *)

Section OnExamples.
Import PenaltyHelpers.

Lemma multinode_indices_resolved_witness :
  couplings (Sample.penalty RULE_NONE false false false true false)
  = Ok [(1, 0, slice_last); (0, 4, slice_first)]
  /\ couplings Sample.multinode
     = Ok [(0, 0, slice_first); (0, 2, slice_first); (1, 3, slice_first)].
Proof.
  split.
  - exact (proj2 (proj1 (multinode_indices_resolved
                           (Sample.penalty RULE_NONE false false false true false))
                    eq_refl eq_refl eq_refl)).
  - exact (proj2 (proj2 (multinode_indices_resolved Sample.multinode)
                    eq_refl eq_refl)).
Defined.

(** A penalty whose integration rule is trapezoidal and whose [integrate]
    flag is not set gets the first sub-step of its node alone, not the
    whole node on top of the next one. *)
Lemma states_trapezoidal_counterexample :
  Penalty.integration_rule (Sample.penalty TRAPEZOIDAL false false false false false)
  = TRAPEZOIDAL
  /\ several_phases
       (Penalty.phase (Sample.penalty TRAPEZOIDAL false false false false false))
     = false
  /\ node_of (Sample.penalty TRAPEZOIDAL false false false false false) (Some 1) = Ok 1
  /\ states (Sample.penalty TRAPEZOIDAL false false false false false) (Some 1)
       Sample.get_state_decision false
     = Ok (Cas MX (CMatrix 2 1 [100; 101]))
  /\ (let* x := fetch Sample.get_state_decision (PhaseInt 0) 1 slice_all in
      let* x1 := second_slice Sample.get_state_decision (PhaseInt 0) 1 false in
      vertcat x [x1])
     = Ok (Cas MX (CMatrix 6 1 [100; 101; 110; 111; 200; 201]))
  /\ states (Sample.penalty TRAPEZOIDAL false false false false false) (Some 1)
       Sample.get_state_decision false
     <> (let* x := fetch Sample.get_state_decision (PhaseInt 0) 1 slice_all in
         let* x1 := second_slice Sample.get_state_decision (PhaseInt 0) 1 false in
         vertcat x [x1]).
Proof.
  repeat split. intros H. vm_compute in H. discriminate H.
Qed.

Lemma states_integrated_witness :
  states (Sample.penalty APPROXIMATE_TRAPEZOIDAL false false false false false)
    (Some 1) Sample.get_state_decision false
  = Ok (Cas MX (CMatrix 6 1 [100; 101; 110; 111; 200; 201]))
  /\ states (Sample.penalty RULE_NONE true false false false false)
       (Some 1) Sample.get_state_decision true
     = Ok (Cas MX (CMatrix 6 1 [100; 101; 110; 111; 120; 121])).
Proof.
  split.
  - exact (eq_trans
             (states_integrated
                (Sample.penalty APPROXIMATE_TRAPEZOIDAL false false false false false)
                (Some 1) Sample.get_state_decision false 1
                eq_refl (or_introl eq_refl) eq_refl)
             eq_refl).
  - exact (eq_trans
             (states_integrated
                (Sample.penalty RULE_NONE true false false false false)
                (Some 1) Sample.get_state_decision true 1
                eq_refl (or_intror eq_refl) eq_refl)
             eq_refl).
Defined.

Lemma rule_none_is_not_approximate : RULE_NONE <> APPROXIMATE_TRAPEZOIDAL.
Proof. discriminate. Defined.


Lemma target_none_is_empty_witness :
  exists a, target (Sample.penalty RULE_NONE false false false false false) 5 = Ok a
            /\ nd_shape a = [0%nat] /\ nd_data a = [] /\ size_of (nd_shape a) = 0%nat.
Proof.
  exact (target_none_is_empty
           (Sample.penalty RULE_NONE false false false false false) 5 eq_refl).
Defined.

Lemma reshape_to_vector_idempotent_witness :
  _reshape_to_vector (Nd (NdArray [3%nat; 1%nat] [7; 8; 9]))
  = Ok (Nd (NdArray [3%nat; 1%nat] [7; 8; 9]))
  /\ _reshape_to_vector (Cas SX (CMatrix 2 1 [4; 5]))
     = Ok (Cas SX (CMatrix 2 1 [4; 5])).
Proof.
  split.
  - exact (proj1 (reshape_to_vector_idempotent
                    (Nd (NdArray [3%nat; 1%nat] [7; 8; 9])) eq_refl)).
  - exact (proj1 (reshape_to_vector_idempotent
                    (Cas SX (CMatrix 2 1 [4; 5])) eq_refl)).
Defined.

(** A matrix of two columns is not left as it is: its columns are put one
    after the other. *)
Example reshape_two_columns :
  _reshape_to_vector (Nd (NdArray [2%nat; 2%nat] [1; 2; 3; 4]))
  = Ok (Nd (NdArray [4%nat; 1%nat] [1; 3; 2; 4]))
  /\ _reshape_to_vector (Cas DM (CMatrix 2 2 [1; 3; 2; 4]))
     = Ok (Cas DM (CMatrix 4 1 [1; 3; 2; 4])).
Proof. split; reflexivity. Qed.

End OnExamples.

(** ** The holonomic constraint builder *)

Section FloatFacts.
Import HolonomicExample.

Lemma null_spec (x : float) :
  null x <-> exists s, Prim2SF x = S754_zero s.
Proof.
  unfold null, PrimFloat.is_zero. rewrite FloatAxioms.eqb_spec.
  change (Prim2SF PrimFloat.zero) with (S754_zero false).
  split.
  - destruct (Prim2SF x) as [s|s| |s m e]; cbn; try discriminate; eauto.
    all: destruct s; discriminate.
  - intros [s ->]. reflexivity.
Qed.

Lemma finite_spec (x : float) :
  finite x ->
  exists s, Prim2SF x = S754_zero s
            \/ exists m e, Prim2SF x = S754_finite s m e.
Proof.
  unfold finite, PrimFloat.is_finite, PrimFloat.is_nan, PrimFloat.is_infinity.
  rewrite !FloatAxioms.eqb_spec, FloatAxioms.abs_spec.
  change (Prim2SF PrimFloat.infinity) with (S754_infinity false).
  destruct (Prim2SF x) as [s|s| |s m e]; cbn; try discriminate; eauto.
  rewrite orb_true_r. discriminate.
Qed.

Lemma float_null_zero : null PrimFloat.zero.
Proof. reflexivity. Qed.

(** The sum of two float zeros is a float zero. *)
Lemma float_null_add a b : null a -> null b -> null (PrimFloat.add a b).
Proof.
  rewrite !null_spec. intros [sa Ha] [sb Hb].
  rewrite FloatAxioms.add_spec, Ha, Hb.
  destruct sa, sb; cbn; eauto.
Qed.

(** A finite float times zero is a float zero; an infinite one gives
    [nan]. *)
Lemma float_null_mul x : finite x -> null (PrimFloat.mul x PrimFloat.zero).
Proof.
  intros Hx. apply null_spec. rewrite FloatAxioms.mul_spec.
  change (Prim2SF PrimFloat.zero) with (S754_zero false).
  destruct (finite_spec x Hx) as [s [-> | (m & e & ->)]]; cbn; eauto.
Qed.

Lemma float_sub_diag x : finite x -> null (PrimFloat.sub x x).
Proof.
  intros Hx. apply null_spec. rewrite FloatAxioms.sub_spec.
  destruct (finite_spec x Hx) as [s [-> | (m & e & ->)]].
  - destruct s; cbn; eauto.
  - unfold SF64sub, SFsub. cbv zeta. rewrite Z.sub_diag. cbn. eauto.
Qed.

Lemma SFeqb_refl (f : spec_float) : f <> S754_nan -> SFeqb f f = true.
Proof.
  destruct f as [s|s| |s m e]; intros Hf; try reflexivity.
  - destruct s; reflexivity.
  - now contradiction Hf.
  - unfold SFeqb, SFcompare. rewrite Z.compare_refl.
    change (PosDef.Pos.compare_cont Eq m m) with (Pos.compare m m).
    rewrite Pos.compare_refl. destruct s; reflexivity.
Qed.

(** Adding a float zero changes no float, up to the sign of a zero. *)
Lemma float_alike_add a x : null a -> alike (PrimFloat.add a x) x.
Proof.
  rewrite null_spec. intros [s Ha]. unfold alike, PrimFloat.is_nan.
  rewrite !FloatAxioms.eqb_spec, FloatAxioms.add_spec, Ha.
  destruct (Prim2SF x) as [sx|sx| |sx m e] eqn:Hx.
  - destruct s, sx; reflexivity.
  - cbn [SF64add SFadd]. rewrite SFeqb_refl by discriminate. apply orb_true_r.
  - reflexivity.
  - cbn [SF64add SFadd]. rewrite SFeqb_refl by discriminate. apply orb_true_r.
Qed.

End FloatFacts.

Section HolonomicFacts.
Import Holonomic.
Context {K : Type} {scalar : Scalar K} {calls : Calls K}.
Implicit Types (biorbd_model : VariationalBiorbdModel K) (index : slice)
  (q : list K) (c : list (expr K)).

Lemma argument_of_size (n : nat) (v : list K) :
  length v = n -> argument n v = Ok v.
Proof. intros <-. unfold argument. now rewrite Nat.eqb_refl. Qed.

Lemma rows_of_jacobian c q :
  map (fun row => row q) (jacobian c) = map (fun e => grad e q) c.
Proof. unfold jacobian. now rewrite map_map. Qed.

(** *** Slices of a casadi column *)

Lemma cas_getslice_take_drop {T : Type} (l r : list T) index :
  cas_getslice l index = Ok r ->
  exists i j, r = take j (drop i l).
Proof.
  unfold cas_getslice. cbv zeta.
  destruct (_ && _); [|discriminate]. intros [= <-]. eauto.
Qed.

Lemma cas_getslice_length {T : Type} (l r : list T) index :
  cas_getslice l index = Ok r -> (length r <= length l)%nat.
Proof.
  intros Hc. destruct (cas_getslice_take_drop _ _ _ Hc) as (i & j & ->).
  rewrite length_take, length_drop. lia.
Qed.

Lemma cas_getslice_Forall {T : Type} (P : T -> Prop) (l r : list T) index :
  cas_getslice l index = Ok r -> Forall P l -> Forall P r.
Proof.
  intros Hc Hl. destruct (cas_getslice_take_drop _ _ _ Hc) as (i & j & ->).
  now apply Forall_take, Forall_drop.
Qed.

(** A slice depends on the column through its length only. *)
Lemma cas_getslice_zip_with {T U V : Type} (f : T -> U -> V) (l : list T)
    (k : list U) index :
  length l = length k ->
  cas_getslice (zip_with f l k) index
  = (let* r := cas_getslice l index in
     let* d := cas_getslice k index in
     Ok (zip_with f r d)).
Proof.
  intros Hl. unfold cas_getslice. cbv zeta.
  rewrite length_zip_with_l_eq by exact Hl. rewrite <- Hl.
  destruct (_ && _); [|reflexivity]. cbn [bind].
  now rewrite zip_with_drop, zip_with_take.
Qed.

(** A slice that stops after the last entry is refused. *)
Lemma cas_getslice_leaves {T : Type} (l : list T) index (b : Z) :
  stop index = Some b -> Z.of_nat (length l) < b < 2 ^ 31 - 1 ->
  cas_getslice l index = Raise ForeignError.
Proof.
  intros Hstop Hb. unfold cas_getslice, first_bound, last_bound. cbv zeta.
  rewrite Hstop.
  rewrite (proj2 (Z.leb_gt (2 ^ 31 - 1) b)) by lia.
  rewrite (proj2 (Z.ltb_ge b 0)) by lia.
  now rewrite (proj2 (Z.leb_gt b _)) by lia.
Qed.

(** *** What the builder compiles *)

Lemma map_eval_sub (c1 c2 : list (expr K)) q :
  map (fun e => eval e q) (zip_with expr_sub c1 c2)
  = zip_with sub (map (fun e => eval e q) c1) (map (fun e => eval e q) c2).
Proof.
  revert c2; induction c1 as [|e1 c1 IH]; intros [|e2 c2]; try reflexivity.
  cbn [zip_with map]. now rewrite IH.
Qed.

(** The builder returns the functions compiled from the selected
    components, for a model of as many velocities as coordinates. *)
Lemma superimpose_markers_returns biorbd_model (marker_1 : string)
    (marker_2 : option string) index c :
  selects biorbd_model marker_1 marker_2 index c ->
  nb_q biorbd_model = nb_qdot biorbd_model ->
  exists f J dd,
    superimpose_markers biorbd_model marker_1 marker_2 index = Ok (f, J, dd)
    /\ compiled biorbd_model c f J dd.
Proof.
  intros Hsel Hn.
  destruct Hsel as [index i1 a1 c H1 H2 Hc | m2 index i1 a1 i2 a2 c H1 H2 H3 H4 Hc];
    unfold superimpose_markers; rewrite H1; cbn [bind]; rewrite H2; cbn [bind];
    rewrite ?H3; cbn [bind]; rewrite ?H4; cbn [bind]; rewrite Hc; cbn [bind];
    rewrite (proj2 (Nat.eqb_eq _ _) Hn); cbn [bind];
    do 3 eexists; (split; [reflexivity|]);
    (split; [reflexivity|]);
    (split; [intros q|intros _ q q_dot q_ddot]);
    repeat (destruct (argument _ _); [cbn [bind]|reflexivity]);
    now rewrite !rows_of_jacobian.
Qed.

(** Functions returned by the builder are compiled from selected
    components. *)
Lemma superimpose_markers_returned biorbd_model (marker_1 : string)
    (marker_2 : option string) index f J dd :
  superimpose_markers biorbd_model marker_1 marker_2 index = Ok (f, J, dd) ->
  exists c, selects biorbd_model marker_1 marker_2 index c
            /\ compiled biorbd_model c f J dd.
Proof.
  unfold superimpose_markers.
  destruct (marker_index biorbd_model marker_1) as [i1|] eqn:H1; [|discriminate].
  cbn [bind].
  destruct (marker biorbd_model i1) as [a1|] eqn:H2; [|discriminate].
  cbn [bind].
  assert (Hend : forall c,
    (let* constraint_double_derivative_func :=
       if (nb_q biorbd_model =? nb_qdot biorbd_model)%nat
       then Ok (fun q q_dot q_ddot =>
                  let* q := argument (nb_q biorbd_model) q in
                  let* q_dot := argument (nb_qdot biorbd_model) q_dot in
                  let* q_ddot := argument (nb_qdot biorbd_model) q_ddot in
                  Ok (vec_add
                        (mtimes (map (fun row => row q) (jacobian c)) q_ddot)
                        (mtimes (map (fun row => row q_dot) (jacobian c)) q_dot)))
       else other_velocities (nb_q biorbd_model) (nb_qdot biorbd_model) (jacobian c) in
     Ok (fun q => let* q := argument (nb_q biorbd_model) q in
                  Ok (map (fun e => eval e q) c),
         fun q => let* q := argument (nb_q biorbd_model) q in
                  Ok (map (fun row => row q) (jacobian c)),
         constraint_double_derivative_func)) = Ok (f, J, dd) ->
    compiled biorbd_model c f J dd).
  { intros c Hb.
    destruct (nb_q biorbd_model =? nb_qdot biorbd_model)%nat eqn:Hn.
    - cbn [bind] in Hb. injection Hb as <- <- <-.
      split; [reflexivity|].
      split; [intros q|intros _ q q_dot q_ddot];
        repeat (destruct (argument _ _); [cbn [bind]|reflexivity]);
        now rewrite !rows_of_jacobian.
    - destruct (other_velocities _ _ _) as [dd'|]; [|discriminate].
      cbn [bind] in Hb. injection Hb as <- <- <-.
      split; [reflexivity|].
      split.
      + intros q. destruct (argument _ _); [cbn [bind]|reflexivity].
        now rewrite rows_of_jacobian.
      + intros Heq. apply Nat.eqb_neq in Hn. now contradiction Hn. }
  destruct marker_2 as [marker_2|].
  - destruct (marker_index biorbd_model marker_2) as [i2|] eqn:H3; [|discriminate].
    cbn [bind].
    destruct (marker biorbd_model i2) as [a2|] eqn:H4; [|discriminate].
    cbn [bind].
    destruct (cas_getslice _ index) as [c|] eqn:Hc; [|discriminate].
    cbn [bind]. intros Hb. exists c. split; [|now apply Hend].
    now apply (selects_two _ _ _ _ i1 a1 i2 a2).
  - destruct (cas_getslice _ index) as [c|] eqn:Hc; [|discriminate].
    cbn [bind]. intros Hb. exists c. split; [|now apply Hend].
    now apply (selects_one _ _ _ i1 a1).
Qed.

Lemma selects_at_most_three biorbd_model (marker_1 : string)
    (marker_2 : option string) index c :
  selects biorbd_model marker_1 marker_2 index c -> (length c <= 3)%nat.
Proof.
  intros [? ? ? ? _ _ Hc | ? ? ? ? ? ? ? _ _ _ _ Hc];
    apply cas_getslice_length in Hc; exact Hc.
Qed.

(** *** Zero velocity, zero acceleration *)

Section Null.
Context (null regular : K -> Prop).
Hypothesis null_zero : null zero.
Hypothesis null_add : forall a b, null a -> null b -> null (add a b).
Hypothesis null_mul : forall x, regular x -> null (mul x zero).

Lemma dot_zeros (row : list K) (n : nat) :
  Forall regular row -> null (dot row (replicate n zero)).
Proof.
  unfold dot. intros Hrow. revert n.
  induction Hrow as [|x row Hx _ IH]; intros [|n]; try exact null_zero.
  cbn [replicate zip_with foldr]. apply null_add; [now apply null_mul|apply IH].
Qed.



End Null.

End HolonomicFacts.

Section DoubleDerivative.
Import Holonomic.
Context {K : Type} {scalar : Scalar K} {calls : Calls K}.
Implicit Types (biorbd_model : VariationalBiorbdModel K) (q : list K).


End DoubleDerivative.



(** Away from zero velocity the two terms are both there. *)
Example constraint_double_derivative_value :
  (let* built := Holonomic.superimpose_markers (HolonomicExample.model 1)
                   "hand" (Some "elbow"%string) Holonomic.default_index in
   snd built [5; 7] [1; 2] [3; 4])
  = Ok [-41; 2; -6].
Proof. reflexivity. Qed.

(** ** The stochastic dynamics assemblers *)

Section Assemblers.
Import Socp.
Context {Dyn W : Type}.
Implicit Types (nlp : list (NonLinearProgram Dyn)) (p : NonLinearProgram Dyn)
  (wM wS : W).

Lemma count_app {T : Type} (f : T -> bool) (l1 l2 : list T) :
  count f (l1 ++ l2) = (count f l1 + count f l2)%nat.
Proof. unfold count. now rewrite List.filter_app, length_app. Qed.

Lemma count_map_all {T U : Type} (f : U -> bool) (g : T -> U) (l : list T) :
  (forall x, f (g x) = true) -> count f (map g l) = length l.
Proof.
  intros Hall. unfold count. induction l as [|x l IH]; [reflexivity|].
  cbn [map List.filter]. rewrite Hall. cbn [length]. now rewrite IH.
Qed.

Lemma count_map_none {T U : Type} (f : U -> bool) (g : T -> U) (l : list T) :
  (forall x, f (g x) = false) -> count f (map g l) = 0%nat.
Proof.
  intros Hnone. unfold count. induction l as [|x l IH]; [reflexivity|].
  cbn [map List.filter]. now rewrite Hnone.
Qed.

Lemma range_length (n : Z) : length (range n) = Z.to_nat n.
Proof. unfold range. now rewrite length_map, length_seq. Qed.

(** One phase adds a constraint on M for each of its [ns - 1] pairs of
    consecutive nodes... *)
Lemma constrain_M_intra wM wS (i : Z) p :
  count (fun c => is_M c && intra_phase c) (constrain_M wM wS i p)
  = Z.to_nat (ns p - 1).
Proof.
  unfold constrain_M. rewrite count_app, count_map_all.
  - rewrite range_length.
    destruct (0 <? i); unfold count, is_M, intra_phase; cbn.
    + rewrite (proj2 (Z.eqb_neq (i - 1) i)) by lia. cbn. lia.
    + lia.
  - intros j. unfold is_M, intra_phase. cbn.
    now rewrite !Z.eqb_refl.
Qed.

(** ... and, unless it is the first phase, one on its boundary with the
    phase before. *)
Lemma constrain_M_boundary wM wS (i : Z) p :
  count (fun c => is_M c && boundary c) (constrain_M wM wS i p)
  = if 0 <? i then 1%nat else 0%nat.
Proof.
  unfold constrain_M. rewrite count_app, count_map_none.
  - destruct (0 <? i); unfold count, is_M, boundary; cbn; [|reflexivity].
    rewrite (proj2 (Z.eqb_eq i (i - 1 + 1))) by lia. reflexivity.
  - intros j. unfold is_M, boundary. cbn.
    rewrite (proj2 (Z.eqb_neq i (i + 1))) by lia. reflexivity.
Qed.

Lemma constrain_M_length wM wS (i : Z) p :
  length (constrain_M wM wS i p)
  = (Z.to_nat (ns p - 1) + if (0 <? i)%Z then 1 else 0)%nat.
Proof.
  unfold constrain_M. rewrite length_app, length_map, range_length.
  now destruct (0 <? i).
Qed.

Lemma enumerate_from_0 {T : Type} (l : list T) :
  enumerate l = enumerate_from 0 l.
Proof. unfold enumerate, enumerate_from, range. now rewrite Nat2Z.id. Qed.

Lemma enumerate_from_cons {T : Type} (k : nat) (x : T) (l : list T) :
  enumerate_from k (x :: l) = (Z.of_nat k, x) :: enumerate_from (S k) l.
Proof. reflexivity. Qed.

Lemma constrain_all_M_intra wM wS (k : nat) nlp :
  count (fun c => is_M c && intra_phase c)
    (enumerate_from k nlp ≫= (fun q => constrain_M wM wS (fst q) (snd q)))
  = sum_list (map (fun p => Z.to_nat (ns p - 1)) nlp).
Proof.
  revert k; induction nlp as [|p nlp IH]; intros k; [reflexivity|].
  rewrite enumerate_from_cons, bind_cons, count_app, IH.
  cbn [fst snd map sum_list sum_list_with]. now rewrite constrain_M_intra.
Qed.

Lemma constrain_all_M_boundary wM wS (k : nat) nlp :
  count (fun c => is_M c && boundary c)
    (enumerate_from k nlp ≫= (fun q => constrain_M wM wS (fst q) (snd q)))
  = (length nlp - if (k =? 0)%nat then 1 else 0)%nat.
Proof.
  revert k; induction nlp as [|p nlp IH]; intros k; [reflexivity|].
  rewrite enumerate_from_cons, bind_cons, count_app, IH.
  cbn [fst snd length Nat.eqb]. rewrite constrain_M_boundary.
  destruct k as [|k]; [reflexivity|].
  rewrite (proj2 (Z.ltb_lt 0 (Z.of_nat (S k)))) by lia. cbn [Nat.eqb]. lia.
Qed.

(** The explicit assembler, for any phases: one constraint on M per pair of
    consecutive nodes of each phase... *)
Lemma explicit_intra_phase nlp wM wS :
  count (fun c => is_M c && intra_phase c)
    (_prepare_stochastic_dynamics_explicit nlp wM wS)
  = sum_list (map (fun p => Z.to_nat (ns p - 1)) nlp).
Proof.
  unfold _prepare_stochastic_dynamics_explicit.
  rewrite enumerate_from_0. apply constrain_all_M_intra.
Qed.

(** ... and one per boundary between two phases. *)
Lemma explicit_boundaries nlp wM wS :
  count (fun c => is_M c && boundary c)
    (_prepare_stochastic_dynamics_explicit nlp wM wS)
  = (length nlp - 1)%nat.
Proof.
  unfold _prepare_stochastic_dynamics_explicit.
  rewrite enumerate_from_0. apply constrain_all_M_boundary.
Qed.

Lemma covariance_boundaries wM wS (k : nat) nlp :
  let l : list (MultinodeConstraint Dyn W) :=
          enumerate_from k nlp ≫= (fun q : Z * NonLinearProgram Dyn =>
             if 0 <? fst q
             then [ {| mc_fcn := MultinodeConstraintFcn.COVARIANCE_MATRIX_CONINUITY_IMPLICIT;
                       nodes_phase := (fst q - 1, fst q);
                       nodes := (-1, 0);
                       dynamics := None;
                       mc_wM_magnitude := wM;
                       mc_wS_magnitude := wS |} ]
             else []) in
  Forall (fun c => is_M c = false /\ boundary c = true) l
  /\ length l = (length nlp - if (k =? 0)%nat then 1 else 0)%nat.
Proof.
  revert k; induction nlp as [|p nlp IH]; intros k; [split; [constructor|reflexivity]|].
  destruct (IH (S k)) as [Hall Hlen]. cbv zeta in *.
  rewrite enumerate_from_cons, bind_cons, Forall_app, length_app, Hlen.
  cbn [fst snd].
  destruct (Z.ltb_spec 0 (Z.of_nat k)) as [Hk|Hk]; destruct k as [|k]; try lia;
    cbn [Nat.eqb length]; (split; [split; [|exact Hall]|lia]).
  - constructor; [|constructor]. split; [reflexivity|].
    unfold boundary. cbn [nodes_phase nodes fst snd].
    rewrite (proj2 (Z.eqb_eq _ _)) by lia. reflexivity.
  - constructor.
Qed.

(** X22. The multi-node constraints of the implicit assembler are those of
    the explicit one, followed by one covariance constraint per boundary
    between two phases. *)
Lemma implicit_multi_node nlp wM wS :
  exists covariance,
    fst (_prepare_stochastic_dynamics_implicit nlp wM wS)
    = _prepare_stochastic_dynamics_explicit nlp wM wS ++ covariance
    /\ Forall (fun c => is_M c = false /\ boundary c = true) covariance
    /\ length covariance = (length nlp - 1)%nat.
Proof.
  eexists. split; [reflexivity|].
  rewrite enumerate_from_0. apply covariance_boundaries.
Qed.

Lemma implicit_single_node_length nlp wM wS :
  length (snd (_prepare_stochastic_dynamics_implicit nlp wM wS))
  = (3 * length nlp)%nat.
Proof.
  unfold _prepare_stochastic_dynamics_implicit. cbn [snd].
  rewrite !length_app, !length_map, enumerate_from_0.
  unfold enumerate_from. rewrite length_zip, length_map, length_seq. lia.
Qed.

(** C4. With one phase of [ns = 5] the explicit assembler emits four
    constraints on M, one per pair of consecutive nodes [(i, i + 1)], and
    none on a phase boundary. *)
Theorem explicit_one_phase_of_five (dynamic_function : Dyn) wM wS :
  let emitted :=
    _prepare_stochastic_dynamics_explicit
      [ {| ns := 5; dynamic_function := dynamic_function |} ] wM wS in
  emitted
  = map (fun i_node =>
           {| mc_fcn := MultinodeConstraintFcn.M_EQUALS_INVERSE_OF_DG_DZ;
              nodes_phase := (0, 0);
              nodes := (i_node, i_node + 1);
              dynamics := Some dynamic_function;
              mc_wM_magnitude := wM;
              mc_wS_magnitude := wS |})
        [0; 1; 2; 3]
  /\ length emitted = 4%nat
  /\ count (fun c => is_M c && intra_phase c) emitted = 4%nat
  /\ count boundary emitted = 0%nat.
Proof. repeat split. Qed.

(** C3. With two phases of [ns = 4] and [ns = 3] the implicit assembler
    emits five constraints on M within the phases, three in phase 0 and two
    in phase 1, one on M and one on the covariance at the boundary between
    the phases, and nothing else on several nodes; each of the three
    single-node constraints is declared once per phase on all its nodes,
    the four nodes of phase 0 and the three nodes of phase 1. *)
Theorem implicit_two_phases (dynamic_function_0 dynamic_function_1 : Dyn) wM wS :
  let nlp := [ {| ns := 4; dynamic_function := dynamic_function_0 |};
               {| ns := 3; dynamic_function := dynamic_function_1 |} ] in
  let multi_node := fst (_prepare_stochastic_dynamics_implicit nlp wM wS) in
  let single_node := snd (_prepare_stochastic_dynamics_implicit nlp wM wS) in
  count (fun c => is_M c && intra_phase c && in_phase 0 c) multi_node = 3%nat
  /\ count (fun c => is_M c && intra_phase c && in_phase 1 c) multi_node = 2%nat
  /\ count (fun c => is_M c && intra_phase c) multi_node = 5%nat
  /\ count (fun c => is_M c && boundary c) multi_node = 1%nat
  /\ count (fun c => negb (is_M c) && boundary c) multi_node = 1%nat
  /\ length multi_node = 7%nat
  /\ (forall f, applied_nodes nlp f 0 single_node = [0; 1; 2; 3]
                /\ applied_nodes nlp f 1 single_node = [0; 1; 2])
  /\ Forall (fun s => node s = Node.ALL) single_node
  /\ length single_node = 6%nat.
Proof.
  repeat split; try reflexivity.
  - destruct f; reflexivity.
  - destruct f; reflexivity.
  - repeat constructor.
Qed.

End Assemblers.

(** ** The constructor of the stochastic program *)

Section Constructor.
Import Init.
Implicit Types keywords kwargs : gmap string pyobj.

Lemma delete_all_lookup_in (names : list string) keywords (name : string) :
  name ∈ names -> foldr delete keywords names !! name = None.
Proof.
  induction names as [|n names IH]; intros Hin; [inversion Hin|].
  cbn [foldr]. destruct (decide (n = name)) as [->|Hne].
  - apply lookup_delete_eq.
  - rewrite lookup_delete_ne by exact Hne. apply IH.
    apply elem_of_cons in Hin as [->|Hin]; [contradiction|exact Hin].
Qed.

Lemma delete_all_lookup_out (names : list string) keywords (name : string) :
  name ∉ names -> foldr delete keywords names !! name = keywords !! name.
Proof.
  induction names as [|n names IH]; intros Hout; [reflexivity|].
  cbn [foldr]. apply not_elem_of_cons in Hout as [Hne Hout].
  rewrite lookup_delete_ne by congruence. now apply IH.
Qed.

(** A keyword that names a parameter never reaches [kwargs]. *)
Lemma kwargs_of_named keywords (name : string) :
  name ∈ named_parameters -> kwargs_of keywords !! name = None.
Proof. apply delete_all_lookup_in. Qed.

Lemma kwargs_has_no_assume_phase_dynamics keywords :
  kwargs_of keywords !! "assume_phase_dynamics"%string = None.
Proof. apply kwargs_of_named. unfold named_parameters. set_solver. Qed.

Lemma kwargs_has_no_n_threads keywords :
  kwargs_of keywords !! "n_threads"%string = None.
Proof. apply kwargs_of_named. unfold named_parameters. set_solver. Qed.

Lemma kwargs_n_thread keywords :
  kwargs_of keywords !! "n_thread"%string = keywords !! "n_thread"%string.
Proof.
  apply delete_all_lookup_out. unfold named_parameters.
  rewrite !not_elem_of_cons. repeat split; try discriminate. apply not_elem_of_nil.
Qed.

(** Whatever is passed for [n_threads] and [assume_phase_dynamics], the
    guards let it through: only a keyword [n_thread], which is not a
    parameter, can make them raise. *)
Lemma guards_see_only_n_thread keywords :
  init_prologue keywords
  = if match keywords !! "n_thread"%string with
       | Some v => ne_one v
       | None => false
       end
    then Raise (ValueError
      "Multi-threading is not possible yet while solving a stochactic ocp.n_thread is set to 1 by default.")
    else Ok ({| n_threads := 1; assume_phase_dynamics := false |},
             {| arg_n_threads := parameter keywords "n_threads" (PInt 1);
                arg_assume_phase_dynamics :=
                  parameter keywords "assume_phase_dynamics" (PBool false) |}).
Proof.
  unfold init_prologue, guards.
  rewrite kwargs_has_no_assume_phase_dynamics, kwargs_n_thread.
  destruct (keywords !! "n_thread"%string) as [v|]; [destruct (ne_one v)|]; reflexivity.
Qed.

(** The attributes that the constructor assigns by itself, when the guards
    pass, are 1 and [False]. *)
Lemma guards_assign keywords self passed :
  init_prologue keywords = Ok (self, passed) ->
  n_threads self = 1 /\ assume_phase_dynamics self = false.
Proof.
  rewrite guards_see_only_n_thread.
  destruct (match keywords !! "n_thread"%string with
            | Some v => ne_one v | None => false end); [discriminate|].
  intros H. injection H as <- _. split; reflexivity.
Qed.

(** C5, on the code.  A call with [n_threads=4] and a call with
    [assume_phase_dynamics=True] both pass the guards: no error is raised,
    and the base class receives the requested values.  Only the keyword
    [n_thread] is refused. *)
Theorem requested_options_pass_the_guards :
  init_prologue {[ "n_threads"%string := PInt 4 ]}
  = Ok ({| n_threads := 1; assume_phase_dynamics := false |},
        {| arg_n_threads := PInt 4; arg_assume_phase_dynamics := PBool false |})
  /\ init_prologue {[ "assume_phase_dynamics"%string := PBool true ]}
     = Ok ({| n_threads := 1; assume_phase_dynamics := false |},
           {| arg_n_threads := PInt 1; arg_assume_phase_dynamics := PBool true |})
  /\ init_prologue {[ "n_thread"%string := PInt 4 ]}
     = Raise (ValueError
         "Multi-threading is not possible yet while solving a stochactic ocp.n_thread is set to 1 by default.").
Proof. repeat split; vm_compute; reflexivity. Qed.

End Constructor.

(** ** The entries of an integrated penalty *)

Section StatesEntries.
Context {A : Type} {inheritance : Inheritance} {casadi : Casadi A}.
Implicit Types (penalty : Penalty.t A)
  (get : phase_field -> Z -> slice -> result (value A)).
Import PenaltyHelpers.

(** On casadi matrices of one kind, the result of the integrated branch
    holds the entries of the whole node, sub-step after sub-step, and then
    those of the second slice. *)
Lemma integrated_branch_entries penalty index get (is_constructing_penalty : bool) node
    (k : cas_kind) (X Y : cmatrix A) :
  several_phases (Penalty.phase penalty) = false ->
  Penalty.integration_rule penalty = APPROXIMATE_TRAPEZOIDAL
  \/ Penalty.integrate penalty = true ->
  node_of penalty index = Ok node ->
  get (Penalty.phase penalty) node slice_all = Ok (Cas k X) ->
  (if is_constructing_penalty
   then get (Penalty.phase penalty) node slice_last
   else get (Penalty.phase penalty) (node + 1) slice_first) = Ok (Cas k Y) ->
  cm_wf X -> cm_wf Y ->
  states penalty index get is_constructing_penalty
  = Ok (Cas k (CMatrix (nrow X * ncol X + nrow Y * ncol Y) 1
                 (entries X ++ entries Y))).
Proof.
  intros Hph Hint Hnode HX HY HwX HwY. unfold states.
  rewrite Hph, Hnode. cbn [bind].
  rewrite (integrated_test penalty Hint), HX. cbn [bind _reshape_to_vector].
  destruct is_constructing_penalty; rewrite HY; cbn [bind _reshape_to_vector];
    apply (vertcat_column_vectors k k k (cas_reshape_col X) (cas_reshape_col Y));
    auto using kind_join_same.
Qed.

End StatesEntries.

(** * Further properties *)

(** ** Indexing *)

Section Indexing.
Context {T : Type}.
Implicit Types l : list T.

Lemma getitem_out_of_range l (i : Z) :
  i < - Z.of_nat (length l) \/ Z.of_nat (length l) <= i ->
  getitem l i = Raise IndexError.
Proof.
  intros Hi. unfold getitem.
  destruct (Z.ltb_spec i 0) as [Hneg|Hpos].
  - destruct (Z.leb_spec 0 (i + Z.of_nat (length l))) as [H0|H0]; [|reflexivity].
    destruct (Z.ltb_spec (i + Z.of_nat (length l)) (Z.of_nat (length l))); [|reflexivity].
    lia.
  - destruct (Z.leb_spec 0 i) as [_|H0]; [|lia].
    destruct (Z.ltb_spec i (Z.of_nat (length l))) as [Hlt|_]; [lia|reflexivity].
Qed.

Lemma getitem_negative l (i : Z) :
  - Z.of_nat (length l) <= i < 0 ->
  getitem l i = getitem l (i + Z.of_nat (length l)).
Proof.
  intros Hi. unfold getitem.
  rewrite (proj2 (Z.ltb_lt i 0)) by lia.
  destruct (Z.ltb_spec (i + Z.of_nat (length l)) 0); [lia|reflexivity].
Qed.

Lemma getitem_first l :
  getitem l 0 = match l with x :: _ => Ok x | [] => Raise IndexError end.
Proof. destruct l; reflexivity. Qed.

Lemma getitem_second l :
  getitem l 1
  = match l with _ :: x :: _ => Ok x | _ => Raise IndexError end.
Proof.
  destruct l as [|x [|y l]]; try reflexivity.
  apply (getitem_nth (x :: y :: l) 1 x). cbn [length]. lia.
Qed.

End Indexing.

(** ** The resolver and the time of a penalty *)

Section ResolverAndTime.
Context {A : Type}.
Implicit Types (penalty : Penalty.t A).
Import PenaltyHelpers.

Lemma transition_indices penalty :
  Penalty.transition penalty = true ->
  length (Penalty.nodes_phase penalty) = 2%nat ->
  length (Penalty.multinode_idx penalty) = 2%nat ->
  _get_multinode_indices penalty
  = Ok ([nth 1 (Penalty.nodes_phase penalty) 0; nth 0 (Penalty.nodes_phase penalty) 0],
        [nth 1 (Penalty.multinode_idx penalty) 0; nth 0 (Penalty.multinode_idx penalty) 0],
        [slice_last; slice_first]).
Proof.
  intros Ht Hp Hn. unfold _get_multinode_indices.
  rewrite Ht, Hp, Hn. cbn [Nat.eqb negb orb].
  rewrite (getitem_nth _ 1 0) by lia.
  rewrite (getitem_nth _ 0 0) by lia.
  rewrite (getitem_nth _ 1 0) by lia.
  rewrite (getitem_nth _ 0 0) by lia.
  reflexivity.
Qed.

(** X1. The resolver fails on a transition whose [nodes_phase] or
    [multinode_idx] does not have exactly two entries, with the
    [RuntimeError] of the source, and on nothing else. *)
Theorem multinode_indices_failure penalty :
  (Penalty.transition penalty = true ->
   length (Penalty.nodes_phase penalty) <> 2%nat
   \/ length (Penalty.multinode_idx penalty) <> 2%nat ->
   _get_multinode_indices penalty
   = Raise (RuntimeError "Transition must have exactly 2 nodes and 2 phases"))
  /\ ((exists e, _get_multinode_indices penalty = Raise e) ->
      Penalty.transition penalty = true
      /\ (length (Penalty.nodes_phase penalty) <> 2%nat
          \/ length (Penalty.multinode_idx penalty) <> 2%nat)).
Proof.
  split.
  - intros Ht Hlen. unfold _get_multinode_indices. rewrite Ht.
    destruct (Nat.eqb_spec (length (Penalty.nodes_phase penalty)) 2%nat) as [Hp|Hp];
      [|reflexivity].
    destruct (Nat.eqb_spec (length (Penalty.multinode_idx penalty)) 2%nat) as [Hn|Hn];
      [|reflexivity].
    destruct Hlen; contradiction.
  - intros [e He].
    destruct (Penalty.transition penalty) eqn:Ht.
    + split; [reflexivity|].
      destruct (Nat.eq_dec (length (Penalty.nodes_phase penalty)) 2%nat) as [Hp|Hp];
        [|left; exact Hp].
      destruct (Nat.eq_dec (length (Penalty.multinode_idx penalty)) 2%nat) as [Hn|Hn];
        [|right; exact Hn].
      rewrite (transition_indices penalty Ht Hp Hn) in He. discriminate He.
    + unfold _get_multinode_indices in He. rewrite Ht in He. discriminate He.
Qed.

Context (item_of_other : string -> result (value A)).

(** X2. The time of a transition is asked at the pair declared second, the
    first one of the resolved couplings, whatever [penalty_node_idx] is. *)
Theorem t0_transition penalty (penalty_node_idx : Z)
    (get_t0 : phase_field -> Z -> result (value A)) :
  Penalty.transition penalty = true ->
  length (Penalty.nodes_phase penalty) = 2%nat ->
  length (Penalty.multinode_idx penalty) = 2%nat ->
  t0 item_of_other penalty penalty_node_idx get_t0
  = (let* m := get_t0 (PhaseInt (nth 1 (Penalty.nodes_phase penalty) 0))
                 (nth 1 (Penalty.multinode_idx penalty) 0) in
     item00 item_of_other m).
Proof.
  intros Ht Hp Hn. unfold t0.
  rewrite Ht, (transition_indices penalty Ht Hp Hn). reflexivity.
Qed.

(** X3. The time of a multi-node penalty that is not a transition is asked
    at the pair declared first, whatever [penalty_node_idx] is; without a
    declared phase or node it is an [IndexError], and [get_t0] is not
    called. *)
Theorem t0_multinode penalty (penalty_node_idx : Z)
    (get_t0 : phase_field -> Z -> result (value A)) :
  Penalty.transition penalty = false ->
  Penalty.multinode_penalty penalty = true ->
  t0 item_of_other penalty penalty_node_idx get_t0
  = match Penalty.nodes_phase penalty, Penalty.multinode_idx penalty with
    | ph :: _, n :: _ => let* m := get_t0 (PhaseInt ph) n in item00 item_of_other m
    | _, _ => Raise IndexError
    end.
Proof.
  intros Ht Hm. unfold t0, _get_multinode_indices.
  rewrite Ht, Hm. cbn [orb bind fst snd]. rewrite !getitem_first.
  destruct (Penalty.nodes_phase penalty) as [|ph phs]; [reflexivity|].
  destruct (Penalty.multinode_idx penalty) as [|n ns]; reflexivity.
Qed.

(** The time of any other penalty is asked at [node_idx[penalty_node_idx]]
    of its phase; an index outside of [node_idx] is an [IndexError], and
    [get_t0] is not called. *)
Lemma t0_single_node penalty (penalty_node_idx : Z)
    (get_t0 : phase_field -> Z -> result (value A)) :
  Penalty.transition penalty = false ->
  Penalty.multinode_penalty penalty = false ->
  (forall node,
      getitem (Penalty.node_idx penalty) penalty_node_idx = Ok node ->
      t0 item_of_other penalty penalty_node_idx get_t0
      = (let* m := get_t0 (Penalty.phase penalty) node in item00 item_of_other m))
  /\ (penalty_node_idx < - Z.of_nat (length (Penalty.node_idx penalty))
      \/ Z.of_nat (length (Penalty.node_idx penalty)) <= penalty_node_idx ->
      t0 item_of_other penalty penalty_node_idx get_t0 = Raise IndexError).
Proof.
  intros Ht Hm. split.
  - intros node Hnode. unfold t0. rewrite Ht, Hm, Hnode. reflexivity.
  - intros Hout. unfold t0. rewrite Ht, Hm.
    rewrite (getitem_out_of_range _ _ Hout). reflexivity.
Qed.

End ResolverAndTime.

(** ** Concatenation of a list of vectors *)

Section ListVertcat.
Context {A : Type} {inheritance : Inheritance} {casadi : Casadi A}.
Implicit Types (m : cmatrix A) (k : cas_kind) (a : ndarray A).
Import PenaltyHelpers.

Lemma isinstance_of_class (x : value A) (c : pyclass) :
  type_of x = c -> isinstance x c = true.
Proof.
  intros Hx. unfold isinstance.
  now rewrite (bool_decide_eq_true_2 _ Hx).
Qed.

Lemma isinstance_casadi k m m' :
  isinstance (Cas k m) (type_of (Cas k m')) = true.
Proof. apply isinstance_of_class. reflexivity. Qed.

Lemma cas_stack_columns m1 m2 :
  is_column m1 -> is_column m2 ->
  cas_stack m1 m2
  = CMatrix (nrow m1 + nrow m2) 1 (entries m1 ++ entries m2).
Proof.
  intros [Hc1 Hl1] [Hc2 Hl2]. unfold cas_stack.
  rewrite Hc1, Hc2.
  rewrite !chunks_one_column by assumption.
  cbn [zip_with concat]. now rewrite app_nil_r.
Qed.

Lemma entries_of_columns (l : list (cmatrix A)) :
  Forall is_column l ->
  length (concat (map entries l)) = sum_list (map nrow l).
Proof.
  induction 1 as [|x l [_ Hx] _ IHl]; [reflexivity|].
  cbn [map concat sum_list sum_list_with]. now rewrite length_app, Hx, IHl.
Qed.

Lemma cas_stack_all_columns m (ms : list (cmatrix A)) :
  is_column m -> Forall is_column ms ->
  cas_stack_all m ms
  = CMatrix (sum_list (map nrow (m :: ms))) 1 (concat (map entries (m :: ms))).
Proof.
  intros Hm Hms. revert m Hm.
  induction Hms as [|m' ms Hm' Hms IH]; intros m Hm.
  - cbn [map cas_stack_all sum_list sum_list_with concat].
    destruct Hm as [Hc Hl]. destruct m as [r c e]. cbn in *. subst c.
    now rewrite Nat.add_0_r, app_nil_r.
  - cbn [cas_stack_all]. rewrite (IH m' Hm').
    rewrite cas_stack_columns.
    + reflexivity.
    + exact Hm.
    + split; [reflexivity|]. cbn [entries nrow].
      apply (entries_of_columns (m' :: ms)). now constructor.
Qed.

Lemma operands_of_one_kind k (ms : list (cmatrix A)) :
  mapM as_casadi (map (Cas k) ms) = Ok (map (pair k) ms).
Proof.
  induction ms as [|m ms IH]; [reflexivity|].
  cbn [map mapM as_casadi]. now rewrite IH.
Qed.

Lemma kinds_join_same k (ms : list (cmatrix A)) :
  kinds_join k (map fst (map (pair k) ms)) = Ok k.
Proof.
  induction ms as [|m ms IH]; [reflexivity|].
  cbn [map fst kinds_join]. rewrite IH. cbn [bind]. apply kind_join_same.
Qed.

Lemma vertcat_columns k m (ms : list (cmatrix A)) :
  is_column m -> Forall is_column ms ->
  vertcat (Cas k m) (map (Cas k) ms)
  = Ok (Cas k (CMatrix (sum_list (map nrow (m :: ms))) 1
                 (concat (map entries (m :: ms))))).
Proof.
  intros Hm Hms. unfold vertcat.
  cbn [as_casadi bind fst snd]. rewrite operands_of_one_kind. cbn [bind].
  rewrite kinds_join_same. cbn [bind].
  replace (map snd (map (pair k) ms)) with ms
    by (rewrite map_map; cbn [snd]; now rewrite map_id).
  replace (forallb (fun m0 => ncol m0 =? ncol m)%nat ms) with true.
  - now rewrite cas_stack_all_columns.
  - symmetry. apply forallb_forall. intros m0 Hm0.
    rewrite Forall_forall in Hms. destruct (Hms m0) as [Hc _].
    { apply list_elem_of_In. exact Hm0. }
    destruct Hm as [Hc' _]. rewrite Hc, Hc'. reflexivity.
Qed.

(** X5. [_vertcat] of casadi column vectors of one kind is the column of
    that kind that holds their entries one vector after the other. *)
Theorem vertcat_of_casadi_columns k m (ms : list (cmatrix A)) :
  is_column m -> Forall is_column ms ->
  _vertcat (map (Cas k) (m :: ms))
  = Ok (Cas k (CMatrix (sum_list (map nrow (m :: ms))) 1
                 (concat (map entries (m :: ms))))).
Proof.
  intros Hm Hms. cbn [map _vertcat].
  cbv zeta.
  replace (forallb (fun tp => isinstance tp (type_of (Cas k m)))
             (Cas k m :: map (Cas k) ms))
    with true.
  - apply vertcat_columns; assumption.
  - symmetry. apply forallb_forall. intros x Hx.
    change (Cas k m :: map (Cas k) ms) with (map (Cas (A:=A) k) (m :: ms)) in Hx.
    apply in_map_iff in Hx as [m' [<- _]]. apply isinstance_casadi.
Qed.


Lemma ndarrays_of_arrays (l : list (ndarray A)) : ndarrays (map Nd l) = l.
Proof.
  unfold ndarrays. induction l as [|a l IH]; [reflexivity|].
  cbn [map]. rewrite bind_cons. cbn [app]. now rewrite IH.
Qed.

Lemma atleast_2d_of_columns (l : list (ndarray A)) :
  Forall (fun a => exists n, nd_shape a = [n; 1%nat]) l ->
  map np_atleast_2d l = l.
Proof.
  induction 1 as [|a l [n Ha] _ IH]; [reflexivity|].
  cbn [map]. rewrite IH. f_equal. unfold np_atleast_2d. now rewrite Ha.
Qed.

(** X7. [_vertcat] of numpy arrays of shape [(n, 1)] is the array of one
    column that holds their entries one array after the other. *)
Theorem vertcat_of_numpy_columns a (l : list (ndarray A)) :
  Forall (fun b => exists n, nd_shape b = [n; 1%nat]) (a :: l) ->
  _vertcat (map Nd (a :: l))
  = Ok (Nd (NdArray [sum_list (map (fun b => hd 0%nat (nd_shape b)) (a :: l)); 1%nat]
              (concat (map nd_data (a :: l))))).
Proof.
  intros Hcols. cbn [map _vertcat]. cbv zeta.
  replace (forallb (fun tp => isinstance tp (type_of (Nd a))) (Nd a :: map Nd l))
    with true.
  - change (Nd a :: map Nd l) with (map (Nd (A:=A)) (a :: l)).
    rewrite ndarrays_of_arrays. unfold np_vstack.
    rewrite (atleast_2d_of_columns _ Hcols).
    inversion Hcols as [|? ? [n Ha] Hl]; subst.
    replace (forallb (fun b => bool_decide (tail (nd_shape b) = tail (nd_shape a))) l)
      with true.
    + replace (tail (nd_shape a)) with [1%nat] by (rewrite Ha; reflexivity).
      reflexivity.
    + symmetry. apply forallb_forall. intros b Hb.
      rewrite Forall_forall in Hl. destruct (Hl b) as [n' Hb'].
      { apply list_elem_of_In. exact Hb. }
      rewrite Ha, Hb'. reflexivity.
  - symmetry. apply forallb_forall. intros x Hx.
    destruct Hx as [<-|Hx]; [now apply isinstance_of_class|].
    apply in_map_iff in Hx as [b [<- _]]. now apply isinstance_of_class.
Qed.

End ListVertcat.

(** ** More on the slices of the states and of the controls *)

Section StatesAndControls.
Context {A : Type} {inheritance : Inheritance} {casadi : Casadi A}.
Implicit Types (penalty : Penalty.t A)
  (get : phase_field -> Z -> slice -> result (value A)).
Import PenaltyHelpers.

(** X10. For a transition of one phase field, neither integrated nor
    derivative, whose callback returns casadi matrices of one kind, [states]
    is the column that holds the last sub-step of the pair declared second
    and then the first sub-step of the pair declared first. *)
Theorem states_of_transition penalty index get (is_constructing_penalty : bool)
    node (k : cas_kind) (X Y : cmatrix A) :
  several_phases (Penalty.phase penalty) = false ->
  Penalty.integration_rule penalty <> APPROXIMATE_TRAPEZOIDAL ->
  Penalty.integrate penalty = false ->
  Penalty.derivative penalty = false ->
  Penalty.explicit_derivative penalty = false ->
  Penalty.transition penalty = true ->
  length (Penalty.nodes_phase penalty) = 2%nat ->
  length (Penalty.multinode_idx penalty) = 2%nat ->
  node_of penalty index = Ok node ->
  get (PhaseInt (nth 1 (Penalty.nodes_phase penalty) 0))
    (nth 1 (Penalty.multinode_idx penalty) 0) slice_last = Ok (Cas k X) ->
  get (PhaseInt (nth 0 (Penalty.nodes_phase penalty) 0))
    (nth 0 (Penalty.multinode_idx penalty) 0) slice_first = Ok (Cas k Y) ->
  cm_wf X -> cm_wf Y ->
  states penalty index get is_constructing_penalty
  = Ok (Cas k (CMatrix (nrow X * ncol X + nrow Y * ncol Y) 1
                 (entries X ++ entries Y))).
Proof.
  intros Hph Hrule Hint Hd He Ht Hp Hn Hnode HX HY HwX HwY. unfold states.
  rewrite Hph, Hnode. cbn [bind].
  rewrite (not_integrated_test penalty Hrule Hint), Hd, He, Ht. cbn [orb].
  unfold couplings. rewrite (transition_indices penalty Ht Hp Hn).
  cbn [bind fst snd zip3 mapM]. rewrite HX. cbn [bind _reshape_to_vector].
  rewrite HY. cbn [bind _reshape_to_vector _vertcat forallb]. cbv zeta.
  rewrite !isinstance_casadi. cbn [andb].
  apply (vertcat_column_vectors k k k (cas_reshape_col X) (cas_reshape_col Y));
    auto using kind_join_same.
Qed.

(** X11. A multi-node penalty without a declared phase or without a declared
    node has nothing to concatenate: [states] and [controls] raise an
    [IndexError]. *)
Theorem states_without_couplings penalty index get (is_constructing_penalty : bool)
    node :
  Penalty.transition penalty = false ->
  Penalty.multinode_penalty penalty = true ->
  Penalty.nodes_phase penalty = [] \/ Penalty.multinode_idx penalty = [] ->
  node_of penalty index = Ok node ->
  controls penalty index get = Raise IndexError
  /\ (several_phases (Penalty.phase penalty) = false ->
      Penalty.integration_rule penalty <> APPROXIMATE_TRAPEZOIDAL ->
      Penalty.integrate penalty = false ->
      Penalty.derivative penalty = false ->
      Penalty.explicit_derivative penalty = false ->
      states penalty index get is_constructing_penalty = Raise IndexError).
Proof.
  intros Ht Hm Hnone Hnode.
  assert (Hc : couplings penalty = Ok []).
  { unfold couplings, _get_multinode_indices. rewrite Ht. cbn [bind fst snd].
    destruct Hnone as [-> | ->]; [reflexivity|].
    destruct (Penalty.nodes_phase penalty); reflexivity. }
  split.
  - unfold controls. rewrite Hnode. cbn [bind]. rewrite Ht, Hm, Hc. reflexivity.
  - intros Hph Hrule Hint Hd He. unfold states.
    rewrite Hph, Hnode. cbn [bind].
    rewrite (not_integrated_test penalty Hrule Hint), Hd, He, Ht, Hm, Hc.
    reflexivity.
Qed.

(** X12. An index outside of [node_idx] is an [IndexError] of [controls],
    and of [states] for a penalty of one phase, whatever the kind of the
    penalty: the callback is not reached. *)
Theorem index_out_of_range penalty (i : Z) get (is_constructing_penalty : bool) :
  i < - Z.of_nat (length (Penalty.node_idx penalty))
  \/ Z.of_nat (length (Penalty.node_idx penalty)) <= i ->
  controls penalty (Some i) get = Raise IndexError
  /\ (several_phases (Penalty.phase penalty) = false ->
      states penalty (Some i) get is_constructing_penalty = Raise IndexError).
Proof.
  intros Hout. split.
  - unfold controls, node_of. now rewrite (getitem_out_of_range _ _ Hout).
  - intros Hph. unfold states, node_of.
    now rewrite Hph, (getitem_out_of_range _ _ Hout).
Qed.

(** X13. The controls of a penalty on one node are one fetch at that node:
    all its sub-steps when the penalty is flagged [integrate], [derivative]
    or [explicit_derivative], its first sub-step otherwise.  The integration
    rule plays no part and the next node is never fetched. *)
Theorem controls_of_one_node penalty index get node :
  Penalty.transition penalty = false ->
  Penalty.multinode_penalty penalty = false ->
  node_of penalty index = Ok node ->
  controls penalty index get
  = fetch get (Penalty.phase penalty) node
      (if Penalty.integrate penalty || Penalty.derivative penalty
          || Penalty.explicit_derivative penalty
       then slice_all else slice_first).
Proof.
  intros Ht Hm Hnode. unfold controls.
  rewrite Hnode. cbn [bind]. rewrite Ht, Hm. cbn [orb]. unfold fetch.
  destruct (Penalty.integrate penalty || Penalty.derivative penalty
            || Penalty.explicit_derivative penalty); reflexivity.
Qed.

(** X14. On a transition or multi-node penalty of one phase field that is
    neither integrated nor derivative, [states] and [controls] select the
    same slices: with one callback they return the same result. *)
Theorem states_and_controls_agree penalty index get (is_constructing_penalty : bool) :
  several_phases (Penalty.phase penalty) = false ->
  Penalty.integration_rule penalty <> APPROXIMATE_TRAPEZOIDAL ->
  Penalty.integrate penalty = false ->
  Penalty.derivative penalty = false ->
  Penalty.explicit_derivative penalty = false ->
  Penalty.transition penalty = true \/ Penalty.multinode_penalty penalty = true ->
  states penalty index get is_constructing_penalty = controls penalty index get.
Proof.
  intros Hph Hrule Hint Hd He Hkind. unfold states, controls.
  rewrite Hph. destruct (node_of penalty index) as [node|e]; [|reflexivity].
  cbn [bind]. rewrite (not_integrated_test penalty Hrule Hint), Hd, He. cbn [orb].
  assert (Hor : Penalty.transition penalty || Penalty.multinode_penalty penalty = true).
  { destruct Hkind as [-> | ->]; [reflexivity|apply orb_true_r]. }
  rewrite Hor. reflexivity.
Qed.

End StatesAndControls.

(** ** More on the reshaping utility and on the target *)

Section ReshapeAndTarget.
Context {A : Type}.
Implicit Types (penalty : Penalty.t A) (m : value A) (a : ndarray A).
Import PenaltyHelpers.

(** X15. Any supported, well-formed matrix is reshaped, without error, into
    a column vector that holds its entries in column-major order. *)
Theorem reshape_to_vector_flattens m :
  well_formed m ->
  match m with Other _ => False | _ => True end ->
  exists v, _reshape_to_vector m = Ok v
            /\ is_column_vector v = true
            /\ column_major v = column_major m.
Proof.
  intros Hwf Hsup.
  destruct (_reshape_to_vector m) as [v|e] eqn:Hv.
  - exists v. split; [reflexivity|]. split.
    + eapply reshape_is_column_vector; eassumption.
    + eapply reshape_column_major; eassumption.
  - destruct m; try discriminate Hv. contradiction.
Qed.

Lemma size_of_app (s1 s2 : list nat) :
  size_of (s1 ++ s2) = (size_of s1 * size_of s2)%nat.
Proof.
  unfold size_of. induction s1 as [|d s1 IH]; cbn [app foldr]; [lia|].
  rewrite IH. lia.
Qed.

Lemma size_of_rev (s : list nat) : size_of (rev s) = size_of s.
Proof.
  induction s as [|d s IH]; [reflexivity|].
  cbn [rev]. rewrite size_of_app, IH. unfold size_of. cbn [foldr]. lia.
Qed.

(** Index [i] along the last axis, of length [n]. *)
Lemma np_index_last_shape a (front : list nat) (n : nat) (i : Z) :
  nd_shape a = front ++ [n] ->
  np_index_last a i
  = let j := if i <? 0 then i + Z.of_nat n else i in
    if (0 <=? j) && (j <? Z.of_nat n)
    then Ok (NdArray front
               (chunks (size_of front) n (nd_data a)
                  ≫= (fun c => take 1 (drop (Z.to_nat j) c))))
    else Raise IndexError.
Proof.
  intros Hs. unfold np_index_last. rewrite Hs, rev_app_distr. cbn [rev app].
  now rewrite rev_involutive, size_of_rev.
Qed.

Lemma np_index_last_error a (i : Z) (e : exn) :
  np_index_last a i = Raise e -> e = IndexError.
Proof.
  unfold np_index_last. destruct (rev (nd_shape a)) as [|n front].
  - now intros [= <-].
  - cbv zeta. destruct (_ && _); [discriminate|now intros [= <-]].
Qed.

Lemma pick_one (l : list A) (j : nat) (x : A) :
  l !! j = Some x -> take 1 (drop j l) = [x].
Proof. intros Hx. rewrite (drop_S l x j Hx). reflexivity. Qed.

Lemma lookup_picked (r n j : nat) (data : list A) (k : nat) :
  length data = (r * n)%nat -> (j < n)%nat -> (k < r)%nat ->
  (chunks r n data ≫= (fun c => take 1 (drop j c))) !! k = data !! (k * n + j)%nat.
Proof.
  revert data k; induction r as [|r IH]; intros data k Hl Hj Hk; [lia|].
  cbn [chunks]. rewrite bind_cons.
  assert (Hx : exists x, data !! j = Some x).
  { apply lookup_lt_is_Some. lia. }
  destruct Hx as [x Hx].
  rewrite (pick_one (take n data) j x) by (rewrite lookup_take_lt by lia; exact Hx).
  destruct k as [|k].
  - cbn [app Nat.mul Nat.add]. cbn. now rewrite Hx.
  - cbn [app]. change (([x] ++ ?l) !! S k) with (l !! k).
    cbn [lookup list_lookup].
    rewrite IH by (rewrite ?length_drop; lia).
    rewrite lookup_drop. f_equal. lia.
Qed.

Lemma length_picked (r n j : nat) (data : list A) :
  length data = (r * n)%nat -> (j < n)%nat ->
  length (chunks r n data ≫= (fun c => take 1 (drop j c))) = r.
Proof.
  revert data; induction r as [|r IH]; intros data Hl Hj; [reflexivity|].
  cbn [chunks]. rewrite bind_cons, length_app, IH by (rewrite ?length_drop; lia).
  rewrite length_take, length_drop, length_take. lia.
Qed.

Lemma np_index_last_negative a (front : list nat) (n : nat) (i : Z) :
  nd_shape a = front ++ [n] -> - Z.of_nat n <= i < 0 ->
  np_index_last a i = np_index_last a (i + Z.of_nat n).
Proof.
  intros Hs Hi. rewrite !(np_index_last_shape a front n) by exact Hs. cbv zeta.
  rewrite (proj2 (Z.ltb_lt i 0)) by lia.
  destruct (Z.ltb_spec (i + Z.of_nat n) 0); [lia|reflexivity].
Qed.

Lemma getitem_elem_of {T : Type} (l : list T) (i : Z) (x : T) :
  getitem l i = Ok x -> x ∈ l.
Proof.
  unfold getitem. destruct (_ && _); [|discriminate].
  destruct (l !! _) as [y|] eqn:Hy; [|discriminate].
  intros [= <-]. eapply list_elem_of_lookup_2. exact Hy.
Qed.

(** X16. Without a trapezoidal rule, the target at node [i] is the first
    target array indexed by [i] along its last axis, of length [n]: the
    other axes are kept, and entry [k] of the result is entry [k n + i] of
    the array ([i + n] for a negative [i]). *)
Theorem target_of_one_node penalty (i : Z) (t0 : ndarray A) rest
    (front : list nat) (n : nat) :
  rule_in (Penalty.integration_rule penalty) [APPROXIMATE_TRAPEZOIDAL; TRAPEZOIDAL]
  = false ->
  Penalty.target penalty = Some (t0 :: rest) ->
  nd_shape t0 = front ++ [n] -> nd_wf t0 ->
  - Z.of_nat n <= i < Z.of_nat n ->
  exists a, target penalty i = Ok a
            /\ nd_shape a = front
            /\ length (nd_data a) = size_of front
            /\ forall k, (k < size_of front)%nat ->
                 nd_data a !! k
                 = nd_data t0
                     !! (k * n + Z.to_nat (if (i <? 0)%Z then (i + Z.of_nat n)%Z else i))%nat.
Proof.
  intros Hrule Htg Hs Hwf Hi. unfold target. rewrite Htg, Hrule.
  rewrite getitem_first. cbn [bind]. rewrite (np_index_last_shape t0 front n) by exact Hs.
  cbv zeta. set (j := if i <? 0 then i + Z.of_nat n else i).
  assert (Hj : 0 <= j < Z.of_nat n).
  { subst j. destruct (Z.ltb_spec i 0); lia. }
  rewrite (proj2 (Z.leb_le 0 j)), (proj2 (Z.ltb_lt j _)) by lia. cbn [andb].
  assert (Hl : length (nd_data t0) = (size_of front * n)%nat).
  { unfold nd_wf in Hwf. rewrite Hs, size_of_app in Hwf. rewrite Hwf.
    unfold size_of. cbn [foldr]. lia. }
  eexists. split; [reflexivity|]. cbn [nd_shape nd_data].
  split; [reflexivity|]. split.
  - apply length_picked; [exact Hl|lia].
  - intros k Hk. apply lookup_picked; [exact Hl|lia|exact Hk].
Qed.

(** X17. An index outside of the last axis of the first target array is an
    [IndexError], with every integration rule. *)
Theorem target_index_out_of_range penalty (i : Z) (t0 : ndarray A) rest
    (front : list nat) (n : nat) :
  Penalty.target penalty = Some (t0 :: rest) ->
  nd_shape t0 = front ++ [n] ->
  i < - Z.of_nat n \/ Z.of_nat n <= i ->
  target penalty i = Raise IndexError.
Proof.
  intros Htg Hs Hi. unfold target. rewrite Htg.
  assert (Hfail : np_index_last t0 i = Raise IndexError).
  { rewrite (np_index_last_shape t0 front n) by exact Hs. cbv zeta.
    destruct (Z.ltb_spec i 0).
    - destruct (Z.leb_spec 0 (i + Z.of_nat n)); [lia|reflexivity].
    - destruct (Z.leb_spec 0 i); [|lia].
      destruct (Z.ltb_spec i (Z.of_nat n)); [lia|reflexivity]. }
  destruct (rule_in _ _); rewrite getitem_first; cbn [bind]; now rewrite Hfail.
Qed.

(** X18. With a trapezoidal or approximate-trapezoidal rule the target needs
    two arrays: with fewer, [target] is an [IndexError] at every node. *)
Theorem target_needs_two_arrays penalty (i : Z) (tg : list (ndarray A)) :
  rule_in (Penalty.integration_rule penalty) [APPROXIMATE_TRAPEZOIDAL; TRAPEZOIDAL]
  = true ->
  Penalty.target penalty = Some tg ->
  (length tg < 2)%nat ->
  target penalty i = Raise IndexError.
Proof.
  intros Hrule Htg Hlen. unfold target. rewrite Htg, Hrule.
  destruct tg as [|t0 [|t1 rest]]; [reflexivity| |cbn [length] in Hlen; lia].
  rewrite getitem_first. cbn [bind].
  destruct (np_index_last t0 i) as [c|e] eqn:Hc.
  - reflexivity.
  - cbn [bind]. now rewrite (np_index_last_error _ _ _ Hc).
Qed.

(** X19. Where every target array has a last axis of length [n], a negative
    node index counts from the end: [target] at [i] is [target] at
    [i + n]. *)
Theorem target_negative_index penalty (i : Z) (tg : list (ndarray A)) (n : nat) :
  Penalty.target penalty = Some tg ->
  Forall (fun t => exists front, nd_shape t = front ++ [n]) tg ->
  - Z.of_nat n <= i < 0 ->
  target penalty i = target penalty (i + Z.of_nat n).
Proof.
  intros Htg Hall Hi. unfold target. rewrite Htg.
  assert (Hneg : forall (j : Z) t, getitem tg j = Ok t ->
            np_index_last t i = np_index_last t (i + Z.of_nat n)).
  { intros j t Ht. apply getitem_elem_of in Ht.
    rewrite Forall_forall in Hall. destruct (Hall t Ht) as [front Hs].
    eapply np_index_last_negative; eassumption. }
  destruct (rule_in _ _).
  - destruct (getitem tg 0) as [t0|e] eqn:H0; [|reflexivity]. cbn [bind].
    rewrite (Hneg 0 t0 H0).
    destruct (np_index_last t0 (i + Z.of_nat n)); [|reflexivity]. cbn [bind].
    destruct (getitem tg 1) as [t1|e] eqn:H1; [|reflexivity]. cbn [bind].
    now rewrite (Hneg 1 t1 H1).
  - destruct (getitem tg 0) as [t0|e] eqn:H0; [|reflexivity]. cbn [bind].
    exact (Hneg 0 t0 H0).
Qed.

Lemma columns_pair (r : nat) (u v : list A) :
  length u = r -> length v = r ->
  columns r [u; v] = zip_with (fun x y => [x; y]) u v.
Proof.
  revert u v; induction r as [|r IH]; intros [|x u] [|y v] Hu Hv;
    try discriminate; [reflexivity|].
  cbn [columns map zip_with]. rewrite !bind_cons. cbn [drop take app].
  f_equal. apply IH; cbn [length] in *; lia.
Qed.

Lemma flatten_F_pair (r : nat) (u v : list A) :
  length u = r -> length v = r ->
  flatten_F [2%nat; r] (u ++ v) = concat (zip_with (fun x y => [x; y]) u v).
Proof.
  intros Hu Hv.
  change (flatten_F [2%nat; r] (u ++ v))
    with (concat (columns (size_of [r])
                    (map (flatten_F [r]) (chunks 2 (size_of [r]) (u ++ v))))).
  replace (size_of [r]) with r by (unfold size_of; cbn [foldr]; lia).
  cbn [chunks map].
  rewrite take_app_length' by lia.
  rewrite drop_app_length' by lia.
  rewrite take_ge by lia.
  rewrite !flatten_F_vector by assumption.
  now rewrite columns_pair.
Qed.

Lemma lookup_interleaved (u v : list A) (k : nat) :
  length u = length v -> (k < length u)%nat ->
  concat (zip_with (fun x y => [x; y]) u v) !! (2 * k)%nat = u !! k
  /\ concat (zip_with (fun x y => [x; y]) u v) !! (2 * k + 1)%nat = v !! k.
Proof.
  revert v k; induction u as [|x u IH]; intros [|y v] k Hl Hk;
    cbn [length] in *; try lia.
  cbn [zip_with concat app]. destruct k as [|k]; [split; reflexivity|].
  replace (2 * S k)%nat with (S (S (2 * k))) by lia.
  replace (S (S (2 * k)) + 1)%nat with (S (S (2 * k + 1))) by lia.
  cbn [lookup list_lookup]. apply IH; lia.
Qed.

(** X20. With a trapezoidal or approximate-trapezoidal rule and two target
    arrays of [r] rows and [n] nodes, the target at node [i] has [r] rows
    and two columns: row [k] holds entry [k] of the first array at node [i]
    and then entry [k] of the second array at the same node [i]. *)
Theorem target_of_two_arrays penalty (i : Z) (t0 t1 : ndarray A) rest (r n : nat) :
  rule_in (Penalty.integration_rule penalty) [APPROXIMATE_TRAPEZOIDAL; TRAPEZOIDAL]
  = true ->
  Penalty.target penalty = Some (t0 :: t1 :: rest) ->
  nd_shape t0 = [r; n] -> nd_shape t1 = [r; n] -> nd_wf t0 -> nd_wf t1 ->
  - Z.of_nat n <= i < Z.of_nat n ->
  exists a, target penalty i = Ok a
            /\ nd_shape a = [r; 2%nat]
            /\ forall k, (k < r)%nat ->
                 let j := Z.to_nat (if (i <? 0)%Z then (i + Z.of_nat n)%Z else i) in
                 nd_data a !! (2 * k)%nat = nd_data t0 !! (k * n + j)%nat
                 /\ nd_data a !! (2 * k + 1)%nat = nd_data t1 !! (k * n + j)%nat.
Proof.
  intros Hrule Htg Hs0 Hs1 Hw0 Hw1 Hi. unfold target. rewrite Htg, Hrule.
  rewrite getitem_first, getitem_second. cbn [bind].
  rewrite (np_index_last_shape t0 [r] n) by exact Hs0.
  rewrite (np_index_last_shape t1 [r] n) by exact Hs1.
  cbv zeta. set (z := if i <? 0 then i + Z.of_nat n else i).
  assert (Hz : 0 <= z < Z.of_nat n).
  { subst z. destruct (Z.ltb_spec i 0); lia. }
  rewrite (proj2 (Z.leb_le 0 z)), (proj2 (Z.ltb_lt z _)) by lia. cbn [andb bind].
  assert (Hsz : size_of [r] = r) by (unfold size_of; cbn [foldr]; lia).
  rewrite Hsz.
  assert (Hl0 : length (nd_data t0) = (r * n)%nat).
  { unfold nd_wf in Hw0. rewrite Hs0 in Hw0. rewrite Hw0.
    unfold size_of. cbn [foldr]. lia. }
  assert (Hl1 : length (nd_data t1) = (r * n)%nat).
  { unfold nd_wf in Hw1. rewrite Hs1 in Hw1. rewrite Hw1.
    unfold size_of. cbn [foldr]. lia. }
  set (c0 := chunks r n (nd_data t0) ≫= (fun c => take 1 (drop (Z.to_nat z) c))).
  set (c1 := chunks r n (nd_data t1) ≫= (fun c => take 1 (drop (Z.to_nat z) c))).
  assert (Hc0 : length c0 = r) by (apply length_picked; [exact Hl0|lia]).
  assert (Hc1 : length c1 = r) by (apply length_picked; [exact Hl1|lia]).
  unfold np_vstack. cbn [map np_atleast_2d nd_shape nd_data forallb tail].
  rewrite bool_decide_true by reflexivity. cbn [andb bind].
  eexists. split; [reflexivity|].
  unfold np_T. cbn [nd_shape nd_data hd sum_list sum_list_with rev app concat Nat.add].
  split; [reflexivity|].
  intros k Hk. cbv zeta. rewrite app_nil_r.
  rewrite flatten_F_pair by assumption.
  destruct (lookup_interleaved c0 c1 k) as [He Ho]; [lia|lia|].
  rewrite He, Ho. subst c0 c1.
  rewrite !lookup_picked by (assumption || lia). split; reflexivity.
Qed.

End ReshapeAndTarget.

(** ** More on the assemblers *)

Section AssemblersInGeneral.
Import Socp.
Context {Dyn W : Type}.
Implicit Types (nlp : list (NonLinearProgram Dyn)) (p : NonLinearProgram Dyn)
  (wM wS : W) (c : MultinodeConstraint Dyn W).

Lemma elem_of_range (n x : Z) : x ∈ range n -> 0 <= x < n.
Proof.
  unfold range. rewrite list_elem_of_In, in_map_iff.
  intros [j [<- Hj]]. apply in_seq in Hj. lia.
Qed.

Lemma elem_of_enumerate_from {T : Type} (k : nat) (l : list T) (i : Z) (x : T) :
  (i, x) ∈ enumerate_from k l ->
  exists j, i = Z.of_nat (k + j) /\ l !! j = Some x.
Proof.
  revert k; induction l as [|y l IH]; intros k Hin.
  - inversion Hin.
  - rewrite enumerate_from_cons in Hin. apply elem_of_cons in Hin as [Heq|Hin].
    + injection Heq as -> ->. exists 0%nat. split; [f_equal; lia|reflexivity].
    + destruct (IH (S k) Hin) as [j [-> Hj]]. exists (S j).
      split; [f_equal; lia|exact Hj].
Qed.

Lemma elem_of_constrain_M wM wS (i : Z) p c :
  c ∈ constrain_M wM wS i p ->
  mc_fcn c = MultinodeConstraintFcn.M_EQUALS_INVERSE_OF_DG_DZ
  /\ snd (nodes_phase c) = i
  /\ dynamics c = Some (dynamic_function p)
  /\ mc_wM_magnitude c = wM /\ mc_wS_magnitude c = wS
  /\ ((fst (nodes_phase c) = i
       /\ 0 <= fst (nodes c) /\ snd (nodes c) = fst (nodes c) + 1
       /\ snd (nodes c) < ns p)
      \/ (0 < i /\ fst (nodes_phase c) = i - 1 /\ nodes c = (-1, 0))).
Proof.
  unfold constrain_M. rewrite elem_of_app. intros [Hin|Hin].
  - apply list_elem_of_In, in_map_iff in Hin as [j [<- Hj]].
    apply list_elem_of_In, elem_of_range in Hj. cbn.
    repeat split; try reflexivity. left. lia.
  - destruct (Z.ltb_spec 0 i) as [Hi|Hi]; [|inversion Hin].
    apply list_elem_of_singleton in Hin as ->. cbn.
    repeat split; try reflexivity. right. repeat split; try reflexivity. exact Hi.
Qed.

(** X23. Every constraint of the explicit assembler is a constraint on M
    with the two noise magnitudes, and carries the dynamics of the phase of
    its second node.  It couples either two consecutive nodes among
    [0 .. ns - 1] of one phase, or node [-1] of the phase before with node
    [0] of a phase that is not the first. *)
Theorem explicit_constraints nlp wM wS c :
  c ∈ _prepare_stochastic_dynamics_explicit nlp wM wS ->
  exists p,
    nlp !! Z.to_nat (snd (nodes_phase c)) = Some p
    /\ 0 <= snd (nodes_phase c)
    /\ mc_fcn c = MultinodeConstraintFcn.M_EQUALS_INVERSE_OF_DG_DZ
    /\ dynamics c = Some (dynamic_function p)
    /\ mc_wM_magnitude c = wM /\ mc_wS_magnitude c = wS
    /\ ((fst (nodes_phase c) = snd (nodes_phase c)
         /\ 0 <= fst (nodes c) /\ snd (nodes c) = fst (nodes c) + 1
         /\ snd (nodes c) < ns p)
        \/ (0 < snd (nodes_phase c)
            /\ fst (nodes_phase c) = snd (nodes_phase c) - 1
            /\ nodes c = (-1, 0))).
Proof.
  unfold _prepare_stochastic_dynamics_explicit. rewrite enumerate_from_0.
  intros Hin. apply list_elem_of_bind in Hin as [[i p] [Hc Hip]].
  apply elem_of_enumerate_from in Hip as [j [-> Hj]]. cbn [fst snd] in Hc.
  apply elem_of_constrain_M in Hc
    as (Hf & Hph & Hdyn & HwM & HwS & Hnodes).
  exists p. rewrite Hph. cbn [Nat.add]. rewrite Nat2Z.id.
  repeat split; try assumption; try lia.
Qed.



End AssemblersInGeneral.

(** ** More on the constructor *)

Section ConstructorInGeneral.
Import Init.
Implicit Types keywords : gmap string pyobj.

(** X25. The constructor raises in its guards only for a keyword [n_thread]
    whose value is not 1, and then with the [ValueError] on
    multi-threading; the [ValueError] on [assume_phase_dynamics] is never
    raised. *)
Theorem prologue_raises_only_on_n_thread keywords :
  (forall e, init_prologue keywords = Raise e ->
     e = ValueError
           "Multi-threading is not possible yet while solving a stochactic ocp.n_thread is set to 1 by default."
     /\ exists v, keywords !! "n_thread"%string = Some v /\ ne_one v = true)
  /\ (forall v, keywords !! "n_thread"%string = Some v -> ne_one v = true ->
        init_prologue keywords
        = Raise (ValueError
            "Multi-threading is not possible yet while solving a stochactic ocp.n_thread is set to 1 by default.")).
Proof.
  rewrite guards_see_only_n_thread. split.
  - intros e. destruct (keywords !! "n_thread"%string) as [v|]; [|discriminate].
    destruct (ne_one v) eqn:Hv; [|discriminate].
    intros [= <-]. split; [reflexivity|]. exists v. split; [reflexivity|exact Hv].
  - intros v -> ->. reflexivity.
Qed.

(** X26. When the guards pass, the constructor has set [n_threads] to 1 and
    [assume_phase_dynamics] to [False], and hands to the base class the
    values of the call for these two parameters, or their defaults 1 and
    [False]. *)
Theorem prologue_passes_the_request_on keywords self passed :
  init_prologue keywords = Ok (self, passed) ->
  n_threads self = 1 /\ assume_phase_dynamics self = false
  /\ arg_n_threads passed = parameter keywords "n_threads" (PInt 1)
  /\ arg_assume_phase_dynamics passed
     = parameter keywords "assume_phase_dynamics" (PBool false).
Proof.
  rewrite guards_see_only_n_thread.
  destruct (match keywords !! "n_thread"%string with
            | Some v => ne_one v | None => false end); [discriminate|].
  intros [= <- <-]. repeat split.
Qed.

End ConstructorInGeneral.

(** ** More on the holonomic constraint *)

Section HolonomicInGeneral.
Import Holonomic.
Context {K : Type} {scalar : Scalar K} {calls : Calls K}.
Implicit Types (biorbd_model : VariationalBiorbdModel K) (index : slice)
  (q : list K).

Lemma selects_one_inv biorbd_model (marker_1 : string) index c :
  selects biorbd_model marker_1 None index c ->
  exists (index_1 : Z) position_1,
    marker_index biorbd_model marker_1 = Ok index_1
    /\ marker biorbd_model index_1 = Ok position_1
    /\ cas_getslice (components position_1) index = Ok c.
Proof. inversion 1; subst; eauto. Qed.

Lemma selects_two_inv biorbd_model (marker_1 marker_2 : string) index c :
  selects biorbd_model marker_1 (Some marker_2) index c ->
  exists (index_1 : Z) position_1 (index_2 : Z) position_2,
    marker_index biorbd_model marker_1 = Ok index_1
    /\ marker biorbd_model index_1 = Ok position_1
    /\ marker_index biorbd_model marker_2 = Ok index_2
    /\ marker biorbd_model index_2 = Ok position_2
    /\ cas_getslice
         (zip_with expr_sub (components position_1) (components position_2))
         index = Ok c.
Proof. inversion 1; subst. do 4 eexists. eauto. Qed.

(** X27. When the builder returns for each of two markers alone, with an
    [index] that casadi accepts on the three components, it returns for
    the two markers together, in a model of as many velocities as
    coordinates; the constraint function of the two markers is then, on
    every argument, the difference of the constraint functions of each
    marker, and it raises where they raise. *)
Theorem two_markers_constraint_is_a_difference biorbd_model
    (marker_1 marker_2 : string) index
    (f1 f2 : list K -> result (list K))
    (J1 J2 : list K -> result (list (list K)))
    (dd1 dd2 : list K -> list K -> list K -> result (list K)) :
  nb_q biorbd_model = nb_qdot biorbd_model ->
  superimpose_markers biorbd_model marker_1 None index = Ok (f1, J1, dd1) ->
  superimpose_markers biorbd_model marker_2 None index = Ok (f2, J2, dd2) ->
  exists f J dd,
    superimpose_markers biorbd_model marker_1 (Some marker_2) index
    = Ok (f, J, dd)
    /\ forall q,
         f q = (let* u := f1 q in let* v := f2 q in Ok (zip_with sub u v)).
Proof.
  intros Hn Hb1 Hb2.
  destruct (superimpose_markers_returned _ _ _ _ _ _ _ Hb1) as (c1 & Hs1 & Hf1 & _).
  destruct (superimpose_markers_returned _ _ _ _ _ _ _ Hb2) as (c2 & Hs2 & Hf2 & _).
  destruct (selects_one_inv _ _ _ _ Hs1) as (i1 & a1 & H1 & H2 & Hc1).
  destruct (selects_one_inv _ _ _ _ Hs2) as (i2 & a2 & H3 & H4 & Hc2).
  destruct (superimpose_markers_returns biorbd_model marker_1 (Some marker_2)
              index (zip_with expr_sub c1 c2)) as (f & J & dd & Hb & Hf & _).
  { apply (selects_two _ _ _ _ i1 a1 i2 a2); try assumption.
    rewrite cas_getslice_zip_with by reflexivity. now rewrite Hc1, Hc2. }
  { exact Hn. }
  exists f, J, dd. split; [exact Hb|].
  intros q. rewrite Hf, Hf1, Hf2.
  destruct (argument (nb_q biorbd_model) q) as [q'|]; [|reflexivity].
  cbn [bind]. now rewrite map_eval_sub.
Qed.

(** X28. Superimposing a marker on itself gives a constraint function that
    returns zeros, on every [q] of the declared size at which the
    components of the marker are [regular]: the scalars whose difference
    with themselves is zero, as the finite floats are. *)
Theorem marker_on_itself (null regular : K -> Prop)
    (sub_diag : forall x, regular x -> null (sub x x))
    biorbd_model (marker_1 : string) index (index_1 : Z)
    (position_1 : expr K * expr K * expr K)
    (f : list K -> result (list K)) (J : list K -> result (list (list K)))
    (dd : list K -> list K -> list K -> result (list K)) :
  marker_index biorbd_model marker_1 = Ok index_1 ->
  marker biorbd_model index_1 = Ok position_1 ->
  superimpose_markers biorbd_model marker_1 (Some marker_1) index
  = Ok (f, J, dd) ->
  forall q,
    length q = nb_q biorbd_model ->
    Forall (fun e => regular (eval e q)) (components position_1) ->
    exists v, f q = Ok v /\ Forall null v.
Proof.
  intros H1 H2 Hb q Hq Hreg.
  destruct (superimpose_markers_returned _ _ _ _ _ _ _ Hb) as (c & Hs & Hf & _).
  destruct (selects_two_inv _ _ _ _ _ Hs) as (i1 & a1 & i2 & a2 & H1' & H2' & H3' & H4' & Hc).
  rewrite H1 in H1', H3'. injection H1' as <-. injection H3' as <-.
  rewrite H2 in H2', H4'. injection H2' as <-. injection H4' as <-.
  rewrite Hf, (argument_of_size _ q Hq). cbn [bind].
  eexists. split; [reflexivity|].
  apply Forall_map. apply (cas_getslice_Forall _ _ _ _ Hc).
  destruct position_1 as [[x y] z]. unfold components in *. cbn [fst snd zip_with] in *.
  inversion Hreg as [|? ? Hx Hreg']; subst.
  inversion Hreg' as [|? ? Hy Hreg'']; subst.
  inversion Hreg'' as [|? ? Hz _]; subst.
  repeat constructor; cbn [expr_sub eval]; now apply sub_diag.
Qed.

(** X29. For one or two markers: when the builder returns, in a model of
    as many velocities as coordinates, the three functions called on
    arguments of the declared sizes agree on the number of components,
    which is at most three: the jacobian has one row per component of the
    constraint, and the double derivative one entry per component.  With
    an [index] that stops after the third component, as [slice(0, 5)], the
    builder raises and returns no function. *)
Theorem components_of_the_three_functions biorbd_model (marker_1 : string)
    (marker_2 : option string) index :
  (forall (f : list K -> result (list K))
          (J : list K -> result (list (list K)))
          (dd : list K -> list K -> list K -> result (list K)),
      superimpose_markers biorbd_model marker_1 marker_2 index = Ok (f, J, dd) ->
      nb_q biorbd_model = nb_qdot biorbd_model ->
      forall q (q_dot q_ddot : list K),
        length q = nb_q biorbd_model ->
        length q_dot = nb_qdot biorbd_model ->
        length q_ddot = nb_qdot biorbd_model ->
        exists c J_q v,
          f q = Ok c /\ J q = Ok J_q /\ dd q q_dot q_ddot = Ok v
          /\ length J_q = length c /\ length v = length c
          /\ (length c <= 3)%nat)
  /\ (forall b : Z,
        stop index = Some b -> 3 < b < 2 ^ 31 - 1 ->
        exists e,
          superimpose_markers biorbd_model marker_1 marker_2 index = Raise e).
Proof.
  split.
  - intros f J dd Hb Hn q q_dot q_ddot Hq Hq_dot Hq_ddot.
    destruct (superimpose_markers_returned _ _ _ _ _ _ _ Hb)
      as (c & Hs & Hf & HJ & Hdd).
    specialize (Hdd Hn).
    rewrite Hf, HJ, Hdd, (argument_of_size _ q Hq),
      (argument_of_size _ q_dot Hq_dot), (argument_of_size _ q_ddot Hq_ddot).
    cbn [bind]. do 3 eexists. repeat (split; [reflexivity|]).
    unfold vec_add, mtimes. rewrite length_zip_with, !length_map.
    repeat split; try lia. exact (selects_at_most_three _ _ _ _ _ Hs).
  - intros b Hstop Hout.
    destruct (superimpose_markers biorbd_model marker_1 marker_2 index)
      as [[[f J] dd]|e] eqn:Hb; [|eauto].
    destruct (superimpose_markers_returned _ _ _ _ _ _ _ Hb) as (c & Hs & _).
    assert (Hraise : forall l : list (expr K), length l = 3%nat ->
              cas_getslice l index = Raise ForeignError).
    { intros l Hl. apply (cas_getslice_leaves l index b Hstop).
      rewrite Hl. exact Hout. }
    destruct Hs as [? ? a1 ? _ _ Hc | ? ? ? a1 ? a2 ? _ _ _ _ Hc];
      rewrite Hraise in Hc; try discriminate Hc;
      destruct a1 as [[x1 y1] z1]; try destruct a2 as [[x2 y2] z2]; reflexivity.
Qed.

(** X30. For two markers that the model knows, in a model of as many
    velocities as coordinates and with an [index] that casadi accepts: at
    zero acceleration and on arguments of the declared sizes, the double
    derivative is [J(q_dot) q_dot], with [J] the jacobian of the selected
    components of the difference of the markers, for every finite [q_dot]
    and every [q] at which the entries of this jacobian are finite.  The
    finite scalars are the [regular] ones; the entries are compared with
    [alike], which tells apart neither the zeros nor the [nan]s of the
    floats. *)
Theorem double_derivative_at_rest_acceleration
    (null regular : K -> Prop) (alike : K -> K -> Prop)
    (null_zero : null zero)
    (null_add : forall a b, null a -> null b -> null (add a b))
    (null_mul : forall x, regular x -> null (mul x zero))
    (alike_add : forall a x, null a -> alike (add a x) x)
    biorbd_model (marker_1 marker_2 : string) index (index_1 index_2 : Z)
    (position_1 position_2 : expr K * expr K * expr K)
    (constraint : list (expr K)) :
  marker_index biorbd_model marker_1 = Ok index_1 ->
  marker biorbd_model index_1 = Ok position_1 ->
  marker_index biorbd_model marker_2 = Ok index_2 ->
  marker biorbd_model index_2 = Ok position_2 ->
  cas_getslice
    (zip_with expr_sub (components position_1) (components position_2)) index
  = Ok constraint ->
  nb_q biorbd_model = nb_qdot biorbd_model ->
  exists f J dd,
    superimpose_markers biorbd_model marker_1 (Some marker_2) index
    = Ok (f, J, dd)
    /\ forall q (q_dot : list K),
         length q = nb_q biorbd_model ->
         length q_dot = nb_qdot biorbd_model ->
         Forall regular q_dot ->
         Forall (fun e => Forall regular (grad e q)) constraint ->
         exists v,
           dd q q_dot (replicate (nb_qdot biorbd_model) zero) = Ok v
           /\ Forall2 alike v
                (mtimes (map (fun e => grad e q_dot) constraint) q_dot).
Proof.
  intros H1 H2 H3 H4 Hc Hn.
  destruct (superimpose_markers_returns biorbd_model marker_1 (Some marker_2)
              index constraint) as (f & J & dd & Hb & _ & _ & Hdd).
  { now apply (selects_two _ _ _ _ index_1 position_1 index_2 position_2). }
  { exact Hn. }
  specialize (Hdd Hn).
  exists f, J, dd. split; [exact Hb|].
  intros q q_dot Hq Hq_dot _ Hreg.
  rewrite Hdd, (argument_of_size _ q Hq), (argument_of_size _ q_dot Hq_dot),
    (argument_of_size _ (replicate _ zero) (length_replicate _ _)).
  cbn [bind]. eexists. split; [reflexivity|].
  unfold vec_add, mtimes.
  clear Hc Hb Hdd. induction Hreg as [|e c He _ IH]; [constructor|].
  cbn [map zip_with]. constructor; [|exact IH].
  apply alike_add.
  now apply (dot_zeros null regular null_zero null_add null_mul).
Qed.

End HolonomicInGeneral.

(** ** The counts of the explicit assembler *)

Section ExplicitCounts.
Import Socp.
Context {Dyn W : Type}.

(** X21. For any phases, the explicit assembler emits one constraint on M
    per pair of consecutive nodes of each phase, [ns - 1] for a phase with
    [ns] of 1 or more and none otherwise, and one per boundary between two
    phases. *)
Theorem explicit_counts (nlp : list (NonLinearProgram Dyn)) (wM wS : W) :
  count (fun c => is_M c && intra_phase c)
    (_prepare_stochastic_dynamics_explicit nlp wM wS)
  = sum_list (map (fun p => Z.to_nat (ns p - 1)) nlp)
  /\ count (fun c => is_M c && boundary c)
       (_prepare_stochastic_dynamics_explicit nlp wM wS)
     = (length nlp - 1)%nat.
Proof.
  unfold _prepare_stochastic_dynamics_explicit. rewrite enumerate_from_0.
  split; [apply constrain_all_M_intra|apply constrain_all_M_boundary].
Qed.

End ExplicitCounts.

(** ** The further properties on concrete inputs *)

Section FurtherOnExamples.
Import PenaltyHelpers.

Lemma multinode_indices_failure_witness :
  _get_multinode_indices
    (Penalty.Build (PhaseInt 0) [] (None : option (list (ndarray Z))) 1 RULE_NONE
       false false false true false [0; 1; 2] [4; 0])
  = Raise (RuntimeError "Transition must have exactly 2 nodes and 2 phases").
Proof.
  apply (proj1 (multinode_indices_failure _)); [reflexivity|].
  left. cbn [Penalty.nodes_phase length]. lia.
Defined.

Lemma t0_transition_witness :
  t0 Sample.item_of_other (Sample.penalty RULE_NONE false false false true false)
    7 Sample.get_t0
  = Ok (Nd (NdArray [] [1000])).
Proof.
  exact (eq_trans
           (t0_transition Sample.item_of_other
              (Sample.penalty RULE_NONE false false false true false)
              7 Sample.get_t0 eq_refl eq_refl eq_refl)
           eq_refl).
Defined.

Lemma t0_multinode_witness :
  t0 Sample.item_of_other Sample.multinode 7 Sample.get_t0 = Ok (Nd (NdArray [] [0]))
  /\ t0 Sample.item_of_other Sample.uncoupled 7 Sample.get_t0 = Raise IndexError.
Proof.
  split.
  - exact (eq_trans
             (t0_multinode Sample.item_of_other Sample.multinode 7 Sample.get_t0
                eq_refl eq_refl)
             eq_refl).
  - exact (t0_multinode Sample.item_of_other Sample.uncoupled 7 Sample.get_t0
             eq_refl eq_refl).
Defined.

Lemma vertcat_of_casadi_columns_witness :
  _vertcat [Cas SX (CMatrix 2 1 [1; 2]); Cas SX (CMatrix 1 1 [3]);
            Cas SX (CMatrix 2 1 [4; 5])]
  = Ok (Cas SX (CMatrix 5 1 [1; 2; 3; 4; 5])).
Proof.
  apply (vertcat_of_casadi_columns SX (CMatrix 2 1 [1; 2])
           [CMatrix 1 1 [3]; CMatrix 2 1 [4; 5]]).
  - split; reflexivity.
  - repeat constructor.
Defined.


Lemma vertcat_of_numpy_columns_witness :
  _vertcat [Nd (NdArray [2%nat; 1%nat] [1; 2]); Nd (NdArray [1%nat; 1%nat] [3])]
  = Ok (Nd (NdArray [3%nat; 1%nat] [1; 2; 3])).
Proof.
  apply (vertcat_of_numpy_columns (NdArray [2%nat; 1%nat] [1; 2])
           [NdArray [1%nat; 1%nat] [3]]).
  repeat constructor; eexists; reflexivity.
Defined.

Lemma states_plain_witness :
  states (Sample.penalty RULE_NONE false false false false false) (Some (-1))
    Sample.get_state_decision false
  = Ok (Cas MX (CMatrix 2 1 [200; 201])).
Proof.
  exact (eq_trans
           (states_plain (Sample.penalty RULE_NONE false false false false false)
              (Some (-1)) Sample.get_state_decision false 2
              eq_refl rule_none_is_not_approximate eq_refl eq_refl eq_refl
              eq_refl eq_refl eq_refl)
           eq_refl).
Defined.

Lemma states_several_phases_witness :
  exists msg, states Sample.over_two_phases None Sample.get_state_decision false
              = Raise (NotImplementedError msg).
Proof.
  exact (states_several_phases Sample.over_two_phases None
           Sample.get_state_decision false eq_refl).
Defined.

Lemma states_of_transition_witness :
  states (Sample.penalty RULE_NONE false false false true false) None
    Sample.get_state_decision false
  = Ok (Cas MX (CMatrix 4 1 [20; 21; 400; 401])).
Proof.
  apply (states_of_transition
           (Sample.penalty RULE_NONE false false false true false) None
           Sample.get_state_decision false 0 MX
           (CMatrix 2 1 [20; 21]) (CMatrix 2 1 [400; 401]));
    first [reflexivity | exact rule_none_is_not_approximate].
Defined.

Lemma states_without_couplings_witness :
  controls Sample.uncoupled None Sample.get_state_decision = Raise IndexError
  /\ states Sample.uncoupled None Sample.get_state_decision false = Raise IndexError.
Proof.
  destruct (states_without_couplings Sample.uncoupled None
              Sample.get_state_decision false 0
              eq_refl eq_refl (or_introl eq_refl) eq_refl) as [Hc Hs].
  split; [exact Hc|].
  apply Hs; first [reflexivity | exact rule_none_is_not_approximate].
Defined.

Lemma index_out_of_range_witness :
  controls Sample.multinode (Some 0) Sample.get_state_decision = Raise IndexError
  /\ states (Sample.penalty RULE_NONE false false false false false) (Some 3)
       Sample.get_state_decision false
     = Raise IndexError.
Proof.
  split.
  - apply (proj1 (index_out_of_range Sample.multinode 0
                    Sample.get_state_decision false
                    ltac:(right; cbn; lia))).
  - apply (proj2 (index_out_of_range
                    (Sample.penalty RULE_NONE false false false false false) 3
                    Sample.get_state_decision false
                    ltac:(right; cbn; lia))).
    reflexivity.
Defined.

Lemma controls_of_one_node_witness :
  controls (Sample.penalty APPROXIMATE_TRAPEZOIDAL false false false false false)
    (Some 1) Sample.get_state_decision
  = Ok (Cas MX (CMatrix 2 1 [100; 101]))
  /\ controls (Sample.penalty RULE_NONE false true false false false)
       (Some 1) Sample.get_state_decision
     = Ok (Cas MX (CMatrix 4 1 [100; 101; 110; 111])).
Proof.
  split.
  - exact (eq_trans
             (controls_of_one_node
                (Sample.penalty APPROXIMATE_TRAPEZOIDAL false false false false false)
                (Some 1) Sample.get_state_decision 1 eq_refl eq_refl eq_refl)
             eq_refl).
  - exact (eq_trans
             (controls_of_one_node
                (Sample.penalty RULE_NONE false true false false false)
                (Some 1) Sample.get_state_decision 1 eq_refl eq_refl eq_refl)
             eq_refl).
Defined.

Lemma states_and_controls_agree_witness :
  states Sample.multinode None Sample.get_state_decision false
  = controls Sample.multinode None Sample.get_state_decision.
Proof.
  exact (states_and_controls_agree Sample.multinode None
           Sample.get_state_decision false
           eq_refl rule_none_is_not_approximate eq_refl eq_refl eq_refl
           (or_intror eq_refl)).
Defined.

Lemma reshape_to_vector_flattens_witness :
  exists v, _reshape_to_vector (Nd (NdArray [2%nat; 3%nat] [1; 2; 3; 4; 5; 6])) = Ok v
            /\ is_column_vector v = true
            /\ column_major v = [1; 4; 2; 5; 3; 6].
Proof.
  exact (reshape_to_vector_flattens
           (Nd (NdArray [2%nat; 3%nat] [1; 2; 3; 4; 5; 6])) eq_refl I).
Defined.

Lemma phases_dt_reshapes_once_witness :
  phases_dt (Sample.penalty RULE_NONE false false false false false) [0; 1]
    Sample.get_all_dt
  = Ok (Nd (NdArray [2%nat; 1%nat] [10; 11])).
Proof.
  exact (eq_trans
           (phases_dt_reshapes_once
              (Sample.penalty RULE_NONE false false false false false) [0; 1]
              Sample.get_all_dt (Nd (NdArray [1%nat; 2%nat] [10; 11])) eq_refl eq_refl)
           eq_refl).
Defined.

End FurtherOnExamples.

Section FurtherOnExamplesOfTargets.
Import PenaltyHelpers.

Lemma target_of_one_node_witness :
  exists a, target (Sample.tracking RULE_NONE [Sample.target_0]) (-1) = Ok a
            /\ nd_shape a = [2%nat]
            /\ length (nd_data a) = size_of [2%nat]
            /\ forall k, (k < size_of [2%nat])%nat ->
                 nd_data a !! k = nd_data Sample.target_0 !! (k * 3 + 2)%nat.
Proof.
  exact (target_of_one_node (Sample.tracking RULE_NONE [Sample.target_0]) (-1)
           Sample.target_0 [] [2%nat] 3 eq_refl eq_refl eq_refl eq_refl
           ltac:(cbn; lia)).
Defined.

Lemma target_index_out_of_range_witness :
  target (Sample.tracking RULE_NONE [Sample.target_0]) 3 = Raise IndexError
  /\ target (Sample.tracking TRAPEZOIDAL [Sample.target_0; Sample.target_1]) (-4)
     = Raise IndexError.
Proof.
  split.
  - exact (target_index_out_of_range (Sample.tracking RULE_NONE [Sample.target_0]) 3
             Sample.target_0 [] [2%nat] 3 eq_refl eq_refl ltac:(right; cbn; lia)).
  - exact (target_index_out_of_range
             (Sample.tracking TRAPEZOIDAL [Sample.target_0; Sample.target_1]) (-4)
             Sample.target_0 [Sample.target_1] [2%nat] 3 eq_refl eq_refl
             ltac:(left; cbn; lia)).
Defined.

Lemma target_needs_two_arrays_witness :
  target (Sample.tracking APPROXIMATE_TRAPEZOIDAL [Sample.target_0]) 1
  = Raise IndexError.
Proof.
  exact (target_needs_two_arrays
           (Sample.tracking APPROXIMATE_TRAPEZOIDAL [Sample.target_0]) 1
           [Sample.target_0] eq_refl eq_refl ltac:(cbn; lia)).
Defined.

Lemma target_negative_index_witness :
  target (Sample.tracking TRAPEZOIDAL [Sample.target_0; Sample.target_1]) (-2)
  = target (Sample.tracking TRAPEZOIDAL [Sample.target_0; Sample.target_1]) 1.
Proof.
  apply (target_negative_index
           (Sample.tracking TRAPEZOIDAL [Sample.target_0; Sample.target_1]) (-2)
           [Sample.target_0; Sample.target_1] 3 eq_refl).
  - repeat constructor; exists [2%nat]; reflexivity.
  - cbn. lia.
Defined.

Lemma target_of_two_arrays_witness :
  exists a, target (Sample.tracking TRAPEZOIDAL [Sample.target_0; Sample.target_1]) 1
            = Ok a
            /\ nd_shape a = [2%nat; 2%nat]
            /\ forall k, (k < 2)%nat ->
                 nd_data a !! (2 * k)%nat = nd_data Sample.target_0 !! (k * 3 + 1)%nat
                 /\ nd_data a !! (2 * k + 1)%nat
                    = nd_data Sample.target_1 !! (k * 3 + 1)%nat.
Proof.
  exact (target_of_two_arrays
           (Sample.tracking TRAPEZOIDAL [Sample.target_0; Sample.target_1]) 1
           Sample.target_0 Sample.target_1 [] 2 3
           eq_refl eq_refl eq_refl eq_refl eq_refl eq_refl ltac:(cbn; lia)).
Defined.

End FurtherOnExamplesOfTargets.

Lemma explicit_constraints_witness :
  exists p,
    [ {| Socp.ns := 4; Socp.dynamic_function := "f0"%string |};
      {| Socp.ns := 3; Socp.dynamic_function := "f1"%string |} ] !! 1%nat = Some p
    /\ 0 <= 1
    /\ MultinodeConstraintFcn.M_EQUALS_INVERSE_OF_DG_DZ
       = MultinodeConstraintFcn.M_EQUALS_INVERSE_OF_DG_DZ
    /\ Some "f1"%string = Some (Socp.dynamic_function p)
    /\ 7 = 7 /\ 8 = 8
    /\ ((0 = 1 /\ 0 <= -1 /\ 0 = -1 + 1 /\ 0 < Socp.ns p)
        \/ (0 < 1 /\ 0 = 1 - 1 /\ (-1, 0) = (-1, 0))).
Proof.
  apply (explicit_constraints
           [ {| Socp.ns := 4; Socp.dynamic_function := "f0"%string |};
             {| Socp.ns := 3; Socp.dynamic_function := "f1"%string |} ] 7 8
           {| Socp.mc_fcn := MultinodeConstraintFcn.M_EQUALS_INVERSE_OF_DG_DZ;
              Socp.nodes_phase := (0, 1);
              Socp.nodes := (-1, 0);
              Socp.dynamics := Some "f1"%string;
              Socp.mc_wM_magnitude := 7;
              Socp.mc_wS_magnitude := 8 |}).
  apply list_elem_of_In. cbn. repeat (first [left; reflexivity | right]).
Defined.

Lemma prologue_passes_the_request_on_witness :
  1 = 1 /\ false = false
  /\ Init.PInt 4
     = Init.parameter ({[ "n_threads"%string := Init.PInt 4 ]} : gmap string Init.pyobj)
         "n_threads" (Init.PInt 1)
  /\ Init.PBool false
     = Init.parameter ({[ "n_threads"%string := Init.PInt 4 ]} : gmap string Init.pyobj)
         "assume_phase_dynamics" (Init.PBool false).
Proof.
  apply (prologue_passes_the_request_on
           ({[ "n_threads"%string := Init.PInt 4 ]} : gmap string Init.pyobj)
           {| Init.n_threads := 1; Init.assume_phase_dynamics := false |}
           {| Init.arg_n_threads := Init.PInt 4;
              Init.arg_assume_phase_dynamics := Init.PBool false |}).
  vm_compute. reflexivity.
Defined.


Lemma two_markers_constraint_is_a_difference_witness :
  exists f J dd,
    Holonomic.superimpose_markers (HolonomicExample.model 1%float)
      "hand" (Some "elbow"%string) (Slice (Some 1) None)
    = Ok (f, J, dd)
    /\ f [5%float; (-7)%float] = Ok [(-12)%float; 7%float].
Proof.
  destruct (two_markers_constraint_is_a_difference
              (HolonomicExample.model 1%float) "hand" "elbow"
              (Slice (Some 1) None) _ _ _ _ _ _ eq_refl eq_refl eq_refl)
    as (f & J & dd & Hb & Hf).
  exists f, J, dd. split; [exact Hb|].
  rewrite Hf. vm_compute. reflexivity.
Defined.

Lemma marker_on_itself_witness :
  exists v,
    (let* built := Holonomic.superimpose_markers (HolonomicExample.model 1%float)
                     "elbow" (Some "elbow"%string) Holonomic.default_index in
     fst (fst built) [5%float; (-7)%float]) = Ok v
    /\ Forall HolonomicExample.null v.
Proof.
  apply (marker_on_itself (scalar := HolonomicExample.floats)
           HolonomicExample.null HolonomicExample.finite float_sub_diag
           (HolonomicExample.model 1%float) "elbow" Holonomic.default_index
           1 _ _ _ _ eq_refl eq_refl eq_refl [5%float; (-7)%float] eq_refl).
  repeat constructor.
Defined.

Lemma components_of_the_three_functions_witness :
  (exists c J_q v,
     (let* built := Holonomic.superimpose_markers (HolonomicExample.model 1%float)
                      "hand" None (Slice (Some (-2)) None) in
      fst (fst built) [5%float; (-7)%float]) = Ok c
     /\ (let* built := Holonomic.superimpose_markers (HolonomicExample.model 1%float)
                         "hand" None (Slice (Some (-2)) None) in
         snd (fst built) [5%float; (-7)%float]) = Ok J_q
     /\ (let* built := Holonomic.superimpose_markers (HolonomicExample.model 1%float)
                         "hand" None (Slice (Some (-2)) None) in
         snd built [5%float; (-7)%float] [1%float; 2%float] [3%float; 4%float]) = Ok v
     /\ length J_q = length c /\ length v = length c /\ (length c <= 3)%nat)
  /\ exists e,
       Holonomic.superimpose_markers (HolonomicExample.model 1%float)
         "hand" (Some "elbow"%string) (Slice (Some 0) (Some 5)) = Raise e.
Proof.
  split.
  - apply (proj1 (components_of_the_three_functions
                    (HolonomicExample.model 1%float) "hand" None
                    (Slice (Some (-2)) None)) _ _ _ eq_refl eq_refl
             [5%float; (-7)%float] [1%float; 2%float] [3%float; 4%float]
             eq_refl eq_refl eq_refl).
  - apply (proj2 (components_of_the_three_functions
                    (HolonomicExample.model 1%float) "hand" (Some "elbow"%string)
                    (Slice (Some 0) (Some 5))) 5 eq_refl).
    split; reflexivity.
Defined.

Lemma double_derivative_at_rest_acceleration_witness :
  exists f J dd,
    Holonomic.superimpose_markers (HolonomicExample.model 1%float)
      "hand" (Some "elbow"%string) (Slice (Some 0) (Some 2))
    = Ok (f, J, dd)
    /\ exists v,
         dd [5%float; (-7)%float] [1%float; 2%float] [0%float; 0%float] = Ok v
         /\ Forall2 HolonomicExample.alike v [(-3)%float; 1%float].
Proof.
  destruct (double_derivative_at_rest_acceleration
              (scalar := HolonomicExample.floats)
              HolonomicExample.null HolonomicExample.finite HolonomicExample.alike
              float_null_zero float_null_add float_null_mul float_alike_add
              (HolonomicExample.model 1%float) "hand" "elbow"
              (Slice (Some 0) (Some 2)) 0 1 _ _ _
              eq_refl eq_refl eq_refl eq_refl eq_refl eq_refl)
    as (f & J & dd & Hb & Hdd).
  exists f, J, dd. split; [exact Hb|].
  apply (Hdd [5%float; (-7)%float] [1%float; 2%float]);
    [reflexivity|reflexivity| |]; repeat constructor.
Defined.
